(** * pdf2dxf: vector illustrations of a PDF page as DXF polylines

    A shallow embedding of [pdf2dxf.py] and the properties of its
    geometry pipeline, page locator and temporary-directory life cycle.

    - Python floats are IEEE 754 binary64 values: [spec_float] with
      precision 53 and maximal exponent 1024, rounded to nearest even.
    - The parsed SVG image, the ALTO metadata document and the DXF drawing
      are the object models of the [svg], [lxml.etree] and [dxfwrite]
      packages, kept to the attributes the program reads.
    - The file system is a record of finite maps and sets; generators are
      finite traces or explicit resumption states. *)

From Stdlib Require Import ZArith Ascii String SpecFloat.
From stdpp Require Import gmap strings list.

#[local] Set Warnings "-register-all".

Local Open Scope string_scope.
Local Open Scope list_scope.

(** ** Python floats *)

Module Float.

Definition float : Type := spec_float.

Definition prec : Z := 53.
Definition emax : Z := 1024.

Definition sub : float -> float -> float := SFsub prec emax.
Definition div : float -> float -> float := SFdiv prec emax.
Definition mul : float -> float -> float := SFmul prec emax.

(** [a == b] and [a < b] on floats. *)
Definition eqb : float -> float -> bool := SFeqb.
Definition ltb : float -> float -> bool := SFltb.

(** An [int] operand of a true division is converted to the nearest
    float first. *)
Definition of_int (n : Z) : float := binary_normalize prec emax n 0 false.

Definition zero : float := S754_zero false.
Definition inf : float := S754_infinity false.
Definition nan : float := S754_nan.

(** The literal [72] (an int, exact as a float) and the literal [25.4]
    (the binary64 value nearest to 254/10). *)
Definition f72 : float := of_int 72.
Definition f25_4 : float := S754_finite false 7149464408450662 (-48).

Definition is_finite (a : float) : bool :=
  match a with
  | S754_zero _ | S754_finite _ _ _ => true
  | S754_infinity _ | S754_nan => false
  end.

Definition is_nan (a : float) : bool :=
  match a with
  | S754_nan => true
  | _ => false
  end.

End Float.

Import Float.

(** ** Exceptions and results *)

Inductive exn :=
| CalledProcessError
| FileNotFoundError
| IndexError.

Inductive result (A : Type) :=
| Ok (a : A)
| Raise (e : exn).

Arguments Ok {A} a.
Arguments Raise {A} e.

(** ** The [svg] package: what [svg.parse] returns *)

Module svg.

Record Point := { x : float; y : float }.

(** A node of the flattened image either has a [segments] method (paths
    and the shapes derived from them) or has none; [type_name] is
    [type(part).__name__]. *)
Inductive part :=
| PathBearing (type_name : string) (segments : list (list Point))
| Opaque (type_name : string).

Definition has_segments (p : part) : bool :=
  match p with
  | PathBearing _ _ => true
  | Opaque _ => false
  end.

Definition segments (p : part) : list (list Point) :=
  match p with
  | PathBearing _ segs => segs
  | Opaque _ => []
  end.

(** The parsed image: its bounding box [(bmin, bmax)] as [bbox()]
    returns it, and what the call [flatten()] does: the nodes it returns,
    in order, or the exception it raises (the package's [flatten] can end
    with [IndexError]). *)
Record image := { bbox : Point * Point; flatten : result (list part) }.

End svg.

(** ** The [dxfwrite] package: a drawing accumulating polylines *)

Module dxf.

Abbreviation polyline := (list (float * float)).

Record drawing := { name : string; entities : list polyline }.

Definition new (dest : string) : drawing :=
  {| name := dest; entities := [] |}.

Definition add (d : drawing) (e : polyline) : drawing :=
  {| name := name d; entities := entities d ++ [e] |}.

End dxf.

(** ** The file system *)

(** [dirs] is the set of the temporary directories that exist (the other
    directories are not tracked); [writable] is the set of the absolute
    paths at which a file can be created or replaced (their directory
    exists); [svg_files] maps (directory, file name) to what [svg.parse]
    returns for that file; [dxf_files] maps an absolute path to the
    polylines of the drawing saved there. *)
Record world := World {
  cwd : string;
  dirs : gset string;
  writable : gset string;
  svg_files : gmap (string * string) svg.image;
  dxf_files : gmap string (list dxf.polyline)
}.

(** [drawing.save()]: the file is opened for writing at the drawing's
    name, which fails when its directory does not exist. *)
Definition store (d : dxf.drawing) (w : world) : world :=
  {| cwd := cwd w; dirs := dirs w; writable := writable w;
     svg_files := svg_files w;
     dxf_files := <[dxf.name d := dxf.entities d]> (dxf_files w) |}.

Definition save (d : dxf.drawing) (w : world) : result world :=
  if bool_decide (dxf.name d ∈ writable w) then Ok (store d w)
  else Raise FileNotFoundError.

(** ** [convert] *)

(** The closure [flipped_y] of [convert], with the captured [max_y] as an
    argument: pdf sizes at 72 px/in to mm. *)
Definition flipped_y (max_y : float) (p : svg.Point) : float * float :=
  (mul (div (svg.x p) f72) f25_4,
   mul (div (sub max_y (svg.y p)) f72) f25_4).

(** The body of [for segment in part.segments()]. *)
Definition add_segments (max_y : float) (drawing : dxf.drawing)
    (segs : list (list svg.Point)) : dxf.drawing :=
  foldl (fun d segment => dxf.add d (flipped_y max_y <$> segment))
        drawing segs.

(** The body of [for part in image.flatten()]. *)
Definition add_part (max_y : float) (drawing : dxf.drawing)
    (part : svg.part) : dxf.drawing :=
  match part with
  | svg.PathBearing _ segs => add_segments max_y drawing segs
  | svg.Opaque _ => drawing   (* log.debug only *)
  end.

Definition convert (source dest : string) (w : world) : result world :=
  match svg_files w !! (cwd w, source) with
  | None => Raise FileNotFoundError
  | Some image =>
      let '(bmim, bmax) := svg.bbox image in
      let max_y := svg.y bmax in
      let drawing := dxf.new dest in
      match svg.flatten image with
      | Raise e => Raise e
      | Ok parts =>
          let drawing := foldl (add_part max_y) drawing parts in
          save drawing w
      end
  end.

(** ** The ALTO metadata document ([lxml.etree]) *)

(** An element: its tag in Clark notation, its attributes, its children in
    document order. *)
Inductive element :=
| Element (tag : string) (attrib : gmap string string)
          (children : list element).

Definition tag (e : element) : string :=
  match e with Element t _ _ => t end.

(** [e.get(name)]: the attribute's value, or [None]. *)
Definition get (e : element) (name : string) : option string :=
  match e with Element _ a _ => a !! name end.

(** The proper descendants of an element, in document order. *)
Fixpoint descendants (e : element) : list element :=
  match e with
  | Element _ _ cs => flat_map (fun c => c :: descendants c) cs
  end.

Definition alto_namespace : string :=
  "http://www.loc.gov/standards/alto/v3/alto.xsd".

Definition alto (local : string) : string :=
  "{" +:+ alto_namespace +:+ "}" +:+ local.

(** [page.xpath(".//alto:Illustration")]. *)
Definition xpath_illustrations (page : element) : list element :=
  filter (fun e => tag e = alto "Illustration") (descendants page).

(** [alto_xml.xpath('//alto:Page[.//alto:Illustration]')], from the root
    element of the document. *)
Definition xpath_pages (root : element) : list element :=
  filter (fun e => tag e = alto "Page"
                   /\ length (xpath_illustrations e) <> 0)
         (root :: descendants root).

(** [l.pop()]: the last item of the list; [None] stands for the
    [IndexError] of an empty list. *)
Definition pop {A : Type} (l : list A) : option A := last l.

(** ** Generators as finite traces *)

(** What a generator without side effects does when it is run to its
    end: it yields, then returns or raises. *)
Inductive trace (Y : Type) :=
| Stop
| Yield (y : Y) (k : trace Y)
| Throw (e : exn).

Arguments Stop {Y}.
Arguments Yield {Y} y k.
Arguments Throw {Y} e.

(** Sequencing: the statements [k] after the statements [t]. *)
Fixpoint and_then {Y : Type} (t k : trace Y) : trace Y :=
  match t with
  | Stop => k
  | Yield y t' => Yield y (and_then t' k)
  | Throw e => Throw e
  end.

Fixpoint yields {Y : Type} (t : trace Y) : list Y :=
  match t with
  | Stop | Throw _ => []
  | Yield y k => y :: yields k
  end.

Fixpoint raised {Y : Type} (t : trace Y) : option exn :=
  match t with
  | Stop => None
  | Yield _ k => raised k
  | Throw e => Some e
  end.

(** A [for] loop over a list whose body is a generator fragment. *)
Definition for_each {A Y : Type} (body : A -> trace Y) (l : list A)
    : trace Y :=
  foldr (fun a k => and_then (body a) k) Stop l.

(** What the locator yields: [(svg_path, (w, h))]. *)
Definition item : Type := string * (float * float).

Definition vectorFileRef (d : item) : string := fst d.
Definition width (d : item) : float := fst (snd d).
Definition height (d : item) : float := snd (snd d).

(** Truth value of an attribute: [None] and the empty string are false. *)
Definition truthy (v : option string) : bool :=
  match v with
  | Some s => negb (String.eqb s "")
  | None => false
  end.

(** ** System calls *)

Definition mkdir (d : string) (w : world) : world :=
  {| cwd := cwd w; dirs := {[ d ]} ∪ dirs w; writable := writable w;
     svg_files := svg_files w; dxf_files := dxf_files w |}.

Definition os_chdir (d : string) (w : world) : world :=
  {| cwd := d; dirs := dirs w; writable := writable w;
     svg_files := svg_files w; dxf_files := dxf_files w |}.

(** [shutil.rmtree(d, ignore_errors=True)]. *)
Definition rmtree (d : string) (w : world) : world :=
  {| cwd := cwd w; dirs := dirs w ∖ {[ d ]}; writable := writable w;
     svg_files := filter (fun kv => fst (fst kv) <> d) (svg_files w);
     dxf_files := dxf_files w |}.

(** The vector files the extraction writes into directory [d]. *)
Definition write_files (d : string) (files : list (string * svg.image))
    (w : world) : world :=
  {| cwd := cwd w; dirs := dirs w; writable := writable w;
     svg_files := foldr (fun f m => <[(d, fst f) := snd f]> m)
                        (svg_files w) files;
     dxf_files := dxf_files w |}.

(** ** Resumption states of the generator [iter_svg_from_pdf] *)

Inductive gen_state :=
| Created (source : string)
    (* not started yet *)
| Suspended (tmpdir curdir : string) (rest : trace item)
    (* at the yield of [yield from], inside [with chdir(tmpdir)];
       [curdir] is the local of [chdir], [rest] what the inner generator
       still has to do *)
| Finished.

Inductive signal :=
| Yielded (it : item)
| StopIteration
| Raised (e : exn).

Inductive outcome :=
| Returned
| Uncaught (e : exn).

(** ** The program, over its external collaborators *)

Section Program.

(** The built-in [float] on a string; [None] is [ValueError]. *)
Variable float_of_str : string -> option float.

(** [tempfile.mkdtemp('.pdfimport')]: the path of the directory it
    creates. *)
Variable mkdtemp : world -> string.

(** The [pdfalto] subprocess on a PDF, run by [subprocess.check_call] in
    the current directory: the vector files it wrote there, and the parsed
    [out.xml] when its exit status is zero ([None] is a non-zero exit
    status, whatever it wrote before). *)
Variable pdfalto : string -> list (string * svg.image) * option element.

(** The body of the loop of [iter_pages_and_sizes] for one page. *)
Definition page_body (page : element) : trace item :=
  let w := get page "WIDTH" in
  let h := get page "HEIGHT" in
  match pop (xpath_illustrations page) with
  | None => Throw IndexError
  | Some illustration =>
      let svg_path := get illustration "FILEID" in
      if truthy w && truthy h && truthy svg_path then
        match w, h, svg_path with
        | Some w, Some h, Some svg_path =>
            (* try: *)
            match float_of_str w with
            | Some fw =>
                match float_of_str h with
                | Some fh => Yield (svg_path, (fw, fh)) Stop
                | None => Stop   (* except ValueError: log.exception *)
                end
            | None => Stop       (* except ValueError: log.exception *)
            end
        | _, _, _ => Stop
        end
      else Stop
  end.

Definition iter_pages_and_sizes (alto_xml : element) : trace item :=
  for_each page_body (xpath_pages alto_xml).

(** Resuming [iter_svg_from_pdf] at its [yield from], with [t] what the
    inner generator does next.  An exception leaves [with chdir(tmpdir)]
    through the context manager, whose generator has no handler around
    its [yield]: [os.chdir(curdir)] is skipped and the two statements
    after the [with] block are not reached. *)
Definition resume (tmpdir curdir : string) (t : trace item) (w : world)
    : signal * gen_state * world :=
  match t with
  | Yield it k => (Yielded it, Suspended tmpdir curdir k, w)
  | Throw e => (Raised e, Finished, w)
  | Stop =>
      let w := os_chdir curdir w in
      (* the log call evaluates os.listdir(tmpdir) *)
      if bool_decide (tmpdir ∈ dirs w)
      then (StopIteration, Finished, rmtree tmpdir w)
      else (Raised FileNotFoundError, Finished, w)
  end.

(** [next(g)] on the generator [iter_svg_from_pdf(source)]. *)
Definition next (g : gen_state) (w : world)
    : signal * gen_state * world :=
  match g with
  | Created source =>
      let tmpdir := mkdtemp w in
      let w := mkdir tmpdir w in
      (* with chdir(tmpdir): *)
      let curdir := cwd w in
      let w := os_chdir tmpdir w in
      let '(files, status) := pdfalto source in
      let w := write_files tmpdir files w in
      match status with
      | None => (Raised CalledProcessError, Finished, w)
      | Some alto_xml =>
          resume tmpdir curdir (iter_pages_and_sizes alto_xml) w
      end
  | Suspended tmpdir curdir rest => resume tmpdir curdir rest w
  | Finished => (StopIteration, Finished, w)
  end.

(** [g.close()], which also runs when a suspended generator is dropped:
    [GeneratorExit] is raised at the [yield] and leaves the generator as
    any other exception does, so no statement of it runs. *)
Definition close (g : gen_state) (w : world) : gen_state * world :=
  (Finished, w).

(** [for c, it in enumerate(g): body], where the body says whether it
    breaks.  [fuel] bounds the number of iterations. *)
Fixpoint for_enumerate (fuel : nat)
    (body : nat -> item -> world -> result (bool * world))
    (c : nat) (g : gen_state) (w : world) : option (outcome * world) :=
  match fuel with
  | O => None
  | S fuel =>
      match next g w with
      | (StopIteration, _, w) => Some (Returned, w)
      | (Raised e, _, w) => Some (Uncaught e, w)
      | (Yielded it, g, w) =>
          match body c it w with
          | Raise e => Some (Uncaught e, snd (close g w))
          | Ok (true, w) => Some (Returned, snd (close g w))
          | Ok (false, w) => for_enumerate fuel body (S c) g w
          end
      end
  end.

(** The body of the loop of [run]: convert, then break if [c > 0]. *)
Definition run_body (dxf : string) (c : nat) (it : item) (w : world)
    : result (bool * world) :=
  let '(svg_path, size_wh) := it in
  match convert svg_path dxf w with
  | Raise e => Raise e
  | Ok w => Ok ((0 <? c)%nat, w)
  end.

(** [run], with the two parsed command-line arguments. *)
Definition run (fuel : nat) (pdf dxf : string) (w : world)
    : option (outcome * world) :=
  for_enumerate fuel (run_body dxf) 0 (Created pdf) w.

End Program.

(** ** Sample inputs *)

Module Sample.

(** The built-in [float] on the strings [[+-]?[0-9]+] (no blanks, no
    underscores): the integer, rounded to the nearest float.  Only
    strings of that form are passed to it below. *)
Definition digit (a : ascii) : option N :=
  let n := N_of_ascii a in
  if ((48 <=? n) && (n <=? 57))%N then Some (n - 48)%N else None.

Fixpoint digits (s : string) (acc : N) : option N :=
  match s with
  | EmptyString => Some acc
  | String a s' =>
      match digit a with
      | Some d => digits s' (10 * acc + d)%N
      | None => None
      end
  end.

Definition magnitude (s : string) : option float :=
  match s with
  | EmptyString => None
  | _ => option_map (fun n => of_int (Z.of_N n)) (digits s 0%N)
  end.

Definition float_of_int_literal (s : string) : option float :=
  match s with
  | String "-"%char s' => option_map SFopp (magnitude s')
  | String "+"%char s' => magnitude s'
  | _ => magnitude s
  end.

Definition pt (a b : Z) : svg.Point :=
  {| svg.x := of_int a; svg.y := of_int b |}.

Definition Page (w h : string) (children : list element) : element :=
  Element (alto "Page") {[ "WIDTH" := w; "HEIGHT" := h ]} children.

Definition Illustration (fileid : string) : element :=
  Element (alto "Illustration") {[ "FILEID" := fileid ]} [].

Definition Layout (pages : list element) : element :=
  Element (alto "alto") ∅ [Element (alto "Layout") ∅ pages].

(** A US-letter page whose drawing reaches up to y = 100 only. *)
Definition p1_svg : svg.image :=
  {| svg.bbox := (pt 0 0, pt 72 100);
     svg.flatten := Ok [svg.PathBearing "Path" [[pt 0 0; pt 72 100]]] |}.

Definition p2_svg : svg.image :=
  {| svg.bbox := (pt 0 0, pt 36 36);
     svg.flatten := Ok [svg.Opaque "Text";
                        svg.PathBearing "Rect" [[pt 0 0; pt 36 36]; []]] |}.

Definition text_svg : svg.image :=
  {| svg.bbox := (pt 0 0, pt 10 10);
     svg.flatten := Ok [svg.Opaque "Text"] |}.

(** A text followed by an empty group: flattening it raises. *)
Definition empty_group_svg : svg.image :=
  {| svg.bbox := (pt 0 0, pt 10 10);
     svg.flatten := Raise IndexError |}.

Definition one_page : element :=
  Layout [Page "612" "792" [Illustration "p1.svg"]].

Definition two_pages : element :=
  Layout [Page "612" "792" [Illustration "p1.svg"];
          Page "612" "792" [Illustration "p2.svg"]].

(** A page with two illustration regions. *)
Definition two_regions : element :=
  Layout [Page "612" "792" [Illustration "p1.svg"; Illustration "p2.svg"]].

(** A page whose declared sizes are not positive. *)
Definition negative_size : element :=
  Layout [Page "-5" "0" [Illustration "p1.svg"]].

(** A page without a HEIGHT attribute, between two regular pages. *)
Definition no_height : element :=
  Layout [Page "612" "792" [Illustration "p1.svg"];
          Element (alto "Page") {[ "WIDTH" := "612" ]}
                  [Illustration "px.svg"];
          Page "612" "792" [Illustration "p2.svg"]].

Definition files : list (string * svg.image) :=
  [("p1.svg", p1_svg); ("p2.svg", p2_svg)].

Definition tmp : string := "/tmp/tmpk3v9.pdfimport".

Definition mkdtemp (w : world) : string := tmp.

Definition pdfalto (source : string)
    : list (string * svg.image) * option element :=
  if String.eqb source "/in/one.pdf" then (files, Some one_page)
  else if String.eqb source "/in/two.pdf" then (files, Some two_pages)
  else if String.eqb source "/in/empty.pdf" then ([], Some (Layout []))
  else if String.eqb source "/in/broken.pdf" then
    ([("p1.svg", p1_svg)], None)
  else ([], None).

(** The directory /out exists, the directory /nowhere does not. *)
Definition start : world :=
  {| cwd := "/home/user"; dirs := ∅;
     writable := {[ "/out/a.dxf"; "/out/b.dxf" ]};
     svg_files := ∅; dxf_files := ∅ |}.

(** The file system once the extraction has run in the new directory. *)
Definition extracted : world :=
  write_files tmp
    (("text.svg", text_svg) :: ("group.svg", empty_group_svg) :: files)
    (os_chdir tmp (mkdir tmp start)).

Definition run := run float_of_int_literal mkdtemp pdfalto.

End Sample.

(** ** Notions the properties are stated with *)

(** The transformer as the specification words it:
    [destX = sourceX / 72 * 25.4],
    [destY = (pageHeight - sourceY) / 72 * 25.4]. *)
Definition toDestination (pageHeight : float) (point : svg.Point)
    : float * float :=
  (mul (div (svg.x point) f72) f25_4,
   mul (div (sub pageHeight (svg.y point)) f72) f25_4).

(** Every segment of every node that flattening the image returns, in
    order (none when it raises). *)
Definition all_segments (image : svg.image) : list (list svg.Point) :=
  match svg.flatten image with
  | Ok parts => parts ≫= svg.segments
  | Raise _ => []
  end.

(** The y of the upper corner of the image's bounding box. *)
Definition bbox_max_y (image : svg.image) : float :=
  svg.y (snd (svg.bbox image)).

(** The drawing a finished run left at [dest], if any. *)
Definition saved_drawing (r : option (outcome * world)) (dest : string)
    : option (list dxf.polyline) :=
  match r with
  | Some (_, w) => dxf_files w !! dest
  | None => None
  end.

(** The directories a finished run left behind. *)
Definition left_dirs (r : option (outcome * world)) : gset string :=
  match r with
  | Some (_, w) => dirs w
  | None => ∅
  end.

(** The file system at the first [yield] of [iter_svg_from_pdf]: the
    directory made and entered, the vector files written. *)
Definition at_first_yield (mkdtemp : world -> string)
    (files : list (string * svg.image)) (w : world) : world :=
  write_files (mkdtemp w) files
    (os_chdir (mkdtemp w) (mkdir (mkdtemp w) w)).

(** A page record whose WIDTH or HEIGHT is missing or does not parse. *)
Definition bad_sizes (float_of_str : string -> option float)
    (page : element) : Prop :=
  match get page "WIDTH", get page "HEIGHT" with
  | Some w, Some h => float_of_str w = None \/ float_of_str h = None
  | _, _ => True
  end.

(** * Properties *)

(** ** Floating-point facts *)

Section FloatFacts.

Lemma f72_value : f72 = S754_finite false 5066549580791808 (-46).
Proof. reflexivity. Qed.

(** [25.4] is the correctly rounded quotient of 254 by 10. *)
Lemma f25_4_value : f25_4 = div (of_int 254) (of_int 10).
Proof. vm_compute. reflexivity. Qed.

Lemma sub_diag (a : float) : is_finite a = true -> sub a a = zero.
Proof.
  destruct a as [[]|[]| |s m e]; simpl; try discriminate; try reflexivity.
  intros _. unfold sub, SFsub.
  rewrite Z.min_id, Z.sub_diag. reflexivity.
Qed.

Lemma sub_zero_r (a : float) : sub a zero = a.
Proof. destruct a as [[]|[]| |s m e]; reflexivity. Qed.

(** [a == b] on a finite [b] leaves two zeros or twice the same float. *)
Lemma eqb_finite_inv (a b : float) :
  eqb a b = true -> is_finite b = true ->
  a = b \/ exists s s', a = S754_zero s /\ b = S754_zero s'.
Proof.
  unfold eqb, SFeqb. intros H Hb.
  destruct b as [sb|sb| |sb mb eb]; try discriminate Hb;
    destruct a as [sa|[]| |sa ma ea]; simpl in H; try discriminate H.
  - right. eauto.
  - destruct sa; discriminate H.
  - destruct sb; discriminate H.
  - left.
    destruct sa, sb; try discriminate H;
      destruct (Z.compare_spec ea eb) as [->| |]; try discriminate H;
      fold (Pos.compare ma mb) in H;
      destruct (Pos.compare_spec ma mb) as [->| |];
      try discriminate H; reflexivity.
Qed.

Lemma eqb_zero_inv (a : float) :
  eqb a zero = true -> exists s, a = S754_zero s.
Proof.
  unfold eqb, SFeqb.
  destruct a as [s|[]| |[] m e]; simpl; try discriminate. eauto.
Qed.

Lemma eqb_refl (a : float) : is_nan a = false -> eqb a a = true.
Proof.
  unfold eqb, SFeqb.
  destruct a as [s|[]| |[] m e]; simpl; try discriminate; try reflexivity;
    intros _; rewrite Z.compare_refl; fold (Pos.compare m m);
    rewrite Pos.compare_refl; reflexivity.
Qed.

(** Rounding a non-negative mantissa never gives NaN. *)
Lemma shr_1_nonneg (mrs : shr_record) :
  (0 <= shr_m mrs)%Z -> (0 <= shr_m (shr_1 mrs))%Z.
Proof. destruct mrs as [[|[p|p|]|[p|p|]] r s]; simpl; lia. Qed.

Lemma iter_pos_invariant {A : Type} (P : A -> Prop) (f : A -> A) :
  (forall a, P a -> P (f a)) ->
  forall n a, P a -> P (SpecFloat.iter_pos f n a).
Proof. intros Hf. induction n; simpl; auto. Qed.

Lemma shr_nonneg (mrs : shr_record) (e n : Z) :
  (0 <= shr_m mrs)%Z -> (0 <= shr_m (fst (shr mrs e n)))%Z.
Proof.
  intros H. destruct n; simpl; trivial.
  apply (iter_pos_invariant (fun r => (0 <= shr_m r)%Z)); trivial.
  apply shr_1_nonneg.
Qed.

Lemma shr_record_of_loc_m (m : Z) (l : location) :
  shr_m (shr_record_of_loc m l) = m.
Proof. destruct l as [|[]]; reflexivity. Qed.

Lemma shr_fexp_nonneg (m e : Z) (l : location) :
  (0 <= m)%Z -> (0 <= shr_m (fst (shr_fexp prec emax m e l)))%Z.
Proof.
  intros H. unfold shr_fexp. apply shr_nonneg.
  rewrite shr_record_of_loc_m. exact H.
Qed.

Lemma round_nearest_even_nonneg (m : Z) (l : location) :
  (0 <= m)%Z -> (0 <= round_nearest_even m l)%Z.
Proof.
  intros H. destruct l as [|[]]; simpl; try lia.
  destruct (Z.even m); lia.
Qed.

Lemma binary_round_aux_not_nan (sx : bool) (mx ex : Z) (lx : location) :
  (0 <= mx)%Z -> is_nan (binary_round_aux prec emax sx mx ex lx) = false.
Proof.
  intros H. unfold binary_round_aux.
  pose proof (shr_fexp_nonneg mx ex lx H) as H1.
  destruct (shr_fexp prec emax mx ex lx) as [mrs1 e1]. simpl in H1.
  pose proof (shr_fexp_nonneg _ e1 loc_Exact
                (round_nearest_even_nonneg _ (loc_of_shr_record mrs1) H1))
    as H2.
  destruct (shr_fexp prec emax _ e1 loc_Exact) as [mrs2 e2]. simpl in H2.
  destruct (shr_m mrs2); try lia; try reflexivity.
  destruct (Z.leb e2 (emax - prec)); reflexivity.
Qed.

Lemma div_eucl_nonneg (a b q r : Z) :
  (0 <= a)%Z -> (0 < b)%Z -> Z.div_eucl a b = (q, r) -> (0 <= q)%Z.
Proof.
  intros Ha Hb E. pose proof (Z_div_mod a b ltac:(lia)) as H.
  rewrite E in H. nia.
Qed.

Lemma div_not_nan (a : float) (s : bool) (m : positive) (e : Z) :
  is_nan a = false -> is_nan (div a (S754_finite s m e)) = false.
Proof.
  destruct a as [sa|sa| |sa ma ea]; try discriminate; try reflexivity.
  intros _. unfold div, SFdiv, SFdiv_core_binary.
  match goal with
  | |- context [Z.div_eucl ?x ?y] =>
      pose proof (div_eucl_nonneg x y) as H;
      destruct (Z.div_eucl x y) as [q r]
  end.
  apply binary_round_aux_not_nan. apply (H q r); trivial; try lia.
  match goal with
  | |- context [match ?z with Z0 => _ | Zpos _ => _ | Zneg _ => _ end] =>
      destruct z
  end; try lia.
  apply Z.shiftl_nonneg. lia.
Qed.

Lemma mul_not_nan (a : float) (s : bool) (m : positive) (e : Z) :
  is_nan a = false -> is_nan (mul a (S754_finite s m e)) = false.
Proof.
  destruct a as [sa|sa| |sa ma ea]; try discriminate; try reflexivity.
  intros _. unfold mul, SFmul. apply binary_round_aux_not_nan. lia.
Qed.

(** [a / 72 * 25.4] is a number when [a] is. *)
Lemma scale_not_nan (a : float) :
  is_nan a = false -> is_nan (mul (div a f72) f25_4) = false.
Proof.
  intros H. rewrite f72_value. unfold f25_4.
  apply mul_not_nan, div_not_nan, H.
Qed.

Lemma scale_zero (s : bool) :
  mul (div (S754_zero s) f72) f25_4 = S754_zero s.
Proof. destruct s; reflexivity. Qed.

End FloatFacts.

(** ** The coordinate transformer *)

Lemma flipped_y_toDestination (max_y : float) (p : svg.Point) :
  flipped_y max_y p = toDestination max_y p.
Proof. reflexivity. Qed.

(** The top of the page is sent to exactly [+0.0], for a finite height. *)
Lemma flipped_y_top (p : svg.Point) (h : float) :
  is_finite h = true -> svg.y p = h -> snd (flipped_y h p) = zero.
Proof.
  intros Hh E. unfold flipped_y. simpl. rewrite E, sub_diag by exact Hh.
  reflexivity.
Qed.

(** The bottom of the page is sent to the float [h / 72 * 25.4]. *)
Lemma flipped_y_bottom (p : svg.Point) (h : float) :
  svg.y p = zero -> snd (flipped_y h p) = mul (div h f72) f25_4.
Proof.
  intros E. unfold flipped_y. simpl. rewrite E, sub_zero_r. reflexivity.
Qed.

(** C7 (as amended): with [==] the comparison of floats, for every point
    [p] and every finite page height [h], [p.y == h] gives a transformed y
    that [== 0]; and for every page height [h] that is not NaN,
    [p.y == 0] gives a transformed y that [== h / 72 * 25.4]. *)
Theorem flipped_y_endpoints (p : svg.Point) (h : float) :
  (is_finite h = true -> eqb (svg.y p) h = true ->
   eqb (snd (flipped_y h p)) zero = true)
  /\ (is_nan h = false -> eqb (svg.y p) zero = true ->
      eqb (snd (flipped_y h p)) (mul (div h f72) f25_4) = true).
Proof.
  split.
  - intros Hh E.
    destruct (eqb_finite_inv _ _ E Hh) as [E1 | (s & s' & E1 & E2)].
    + rewrite (flipped_y_top p h Hh E1). reflexivity.
    + unfold flipped_y. simpl. rewrite E1, E2.
      destruct s, s'; reflexivity.
  - intros Hh E. destruct (eqb_zero_inv _ E) as [s E1].
    unfold flipped_y. simpl. rewrite E1.
    destruct h as [sh|sh| |sh mh eh]; try discriminate Hh.
    + destruct sh, s; reflexivity.
    + apply eqb_refl, scale_not_nan. reflexivity.
    + apply eqb_refl, scale_not_nan. reflexivity.
Qed.

Lemma flipped_y_endpoints_witness :
  eqb (snd (flipped_y (of_int 792) (Sample.pt 72 792))) zero = true
  /\ eqb (snd (flipped_y (of_int 792) (Sample.pt 0 0)))
         (mul (div (of_int 792) f72) f25_4) = true.
Proof.
  split.
  - apply (proj1 (flipped_y_endpoints (Sample.pt 72 792) (of_int 792)));
      reflexivity.
  - apply (proj2 (flipped_y_endpoints (Sample.pt 0 0) (of_int 792)));
      reflexivity.
Defined.

(** C7 fails as stated: with an infinite page height the top of the page
    is sent to NaN, and with a NaN page height the bottom of the page is
    sent to NaN, which compares equal to nothing. *)
Lemma flipped_y_endpoints_counterexample :
  (eqb (svg.y {| svg.x := zero; svg.y := inf |}) inf = true
   /\ snd (flipped_y inf {| svg.x := zero; svg.y := inf |}) = nan
   /\ eqb (snd (flipped_y inf {| svg.x := zero; svg.y := inf |})) zero
      = false)
  /\ (eqb (svg.y {| svg.x := zero; svg.y := zero |}) zero = true
      /\ eqb (snd (flipped_y nan {| svg.x := zero; svg.y := zero |}))
             (mul (div nan f72) f25_4) = false).
Proof. repeat split. Qed.

(** ** [convert]: what is saved *)

Section Convert.

Variable max_y : float.

Lemma add_segments_name (d : dxf.drawing) (segs : list (list svg.Point)) :
  dxf.name (add_segments max_y d segs) = dxf.name d.
Proof.
  unfold add_segments. revert d.
  induction segs as [|seg segs IH]; intros d; [reflexivity|].
  cbn [foldl]. rewrite IH. reflexivity.
Qed.

Lemma add_segments_entities (d : dxf.drawing)
    (segs : list (list svg.Point)) :
  dxf.entities (add_segments max_y d segs)
  = dxf.entities d ++ (fmap (M:=list) (flipped_y max_y) <$> segs).
Proof.
  unfold add_segments. revert d.
  induction segs as [|seg segs IH]; intros d; cbn [foldl fmap list_fmap].
  - rewrite app_nil_r. reflexivity.
  - rewrite IH. cbn [dxf.add dxf.entities].
    rewrite <- app_assoc. reflexivity.
Qed.

Lemma add_part_name (d : dxf.drawing) (part : svg.part) :
  dxf.name (add_part max_y d part) = dxf.name d.
Proof. destruct part; simpl; trivial. apply add_segments_name. Qed.

Lemma add_part_entities (d : dxf.drawing) (part : svg.part) :
  dxf.entities (add_part max_y d part)
  = dxf.entities d
    ++ (fmap (M:=list) (flipped_y max_y) <$> svg.segments part).
Proof.
  destruct part; simpl.
  - apply add_segments_entities.
  - rewrite app_nil_r. reflexivity.
Qed.

Lemma add_parts_name (d : dxf.drawing) (parts : list svg.part) :
  dxf.name (foldl (add_part max_y) d parts) = dxf.name d.
Proof.
  revert d. induction parts as [|part parts IH]; intros d; [reflexivity|].
  cbn [foldl]. rewrite IH. apply add_part_name.
Qed.

Lemma add_parts_entities (d : dxf.drawing) (parts : list svg.part) :
  dxf.entities (foldl (add_part max_y) d parts)
  = dxf.entities d
    ++ (fmap (M:=list) (flipped_y max_y) <$> (parts ≫= svg.segments)).
Proof.
  revert d. induction parts as [|part parts IH]; intros d.
  - cbn. rewrite app_nil_r. reflexivity.
  - cbn [foldl]. rewrite IH, add_part_entities, bind_cons, fmap_app, app_assoc.
    reflexivity.
Qed.

End Convert.

Lemma save_writable (d : dxf.drawing) (w : world) :
  dxf.name d ∈ writable w -> save d w = Ok (store d w).
Proof.
  intros H. unfold save. rewrite bool_decide_eq_true_2 by exact H.
  reflexivity.
Qed.

Lemma convert_eq (source dest : string) (w : world) (image : svg.image)
    (parts : list svg.part) :
  svg_files w !! (cwd w, source) = Some image ->
  svg.flatten image = Ok parts ->
  dest ∈ writable w ->
  convert source dest w
  = Ok (store (foldl (add_part (bbox_max_y image)) (dxf.new dest) parts)
              w).
Proof.
  intros Hf Hp Hd. unfold convert, bbox_max_y. rewrite Hf, Hp.
  destruct (svg.bbox image) as [bmim bmax]. apply save_writable.
  rewrite add_parts_name. exact Hd.
Qed.

(** A source that parses and flattens is converted when the destination
    can be written, and the drawing saved at [dest] holds one transformed
    polyline per segment, in order. *)
Lemma convert_saved (source dest : string) (w : world) (image : svg.image)
    (parts : list svg.part) :
  svg_files w !! (cwd w, source) = Some image ->
  svg.flatten image = Ok parts ->
  dest ∈ writable w ->
  exists w',
    convert source dest w = Ok w'
    /\ dxf_files w' !! dest
       = Some (fmap (M:=list) (flipped_y (bbox_max_y image))
                 <$> all_segments image)
    /\ dirs w' = dirs w /\ cwd w' = cwd w.
Proof.
  intros Hf Hp Hd. rewrite (convert_eq _ _ _ _ _ Hf Hp Hd).
  eexists. split; [reflexivity|]. split; [|split; reflexivity].
  unfold all_segments. rewrite Hp. simpl.
  rewrite add_parts_name, add_parts_entities. simpl.
  apply lookup_insert_eq.
Qed.

(** C1 (as amended): every point of every polyline that the loop body of
    [run] saves is [(x / 72 * 25.4, (maxY - y) / 72 * 25.4)] of its source
    point, unclamped, where [maxY] is the upper y of the parsed image's
    bounding box; the page size of the yielded descriptor is not used.
    (The body saves when the image flattens and the destination can be
    written.) *)
Theorem run_body_transform (dest source : string) (size_wh : float * float)
    (c : nat) (w : world) (image : svg.image) (parts : list svg.part) :
  svg_files w !! (cwd w, source) = Some image ->
  svg.flatten image = Ok parts ->
  dest ∈ writable w ->
  exists w',
    run_body dest c (source, size_wh) w = Ok ((0 <? c)%nat, w')
    /\ dxf_files w' !! dest
       = Some (fmap (M:=list) (toDestination (bbox_max_y image))
                 <$> all_segments image).
Proof.
  intros Hf Hp Hd.
  destruct (convert_saved source dest w image parts Hf Hp Hd)
    as (w' & Hc & Hs & _).
  exists w'. unfold run_body. rewrite Hc. split; [reflexivity|exact Hs].
Qed.

Lemma opaque_segments (parts : list svg.part) :
  Forall (fun part => svg.has_segments part = false) parts ->
  parts ≫= svg.segments = [].
Proof.
  induction 1 as [|part parts Hp _ IH]; [reflexivity|].
  rewrite bind_cons, IH. destruct part; [discriminate Hp|reflexivity].
Qed.

Lemma segments_of_path_bearing (parts : list svg.part) :
  filter (fun part => svg.has_segments part = true) parts ≫= svg.segments
  = parts ≫= svg.segments.
Proof.
  induction parts as [|part parts IH]; [reflexivity|].
  destruct part as [n segs|n].
  - rewrite filter_cons_True by reflexivity.
    rewrite !bind_cons, IH. reflexivity.
  - rewrite filter_cons_False by discriminate.
    rewrite bind_cons, IH. reflexivity.
Qed.

(** X15: the loop of [convert] drops the nodes without segments.  When
    the image flattens and the destination can be written, the conversion
    succeeds whatever nodes the flattening returned, the saved drawing
    holds the polylines of the nodes with segments only, and it is empty
    when no node has segments. *)
Theorem convert_drops_non_geometric (source dest : string) (w : world)
    (image : svg.image) (parts : list svg.part) :
  svg_files w !! (cwd w, source) = Some image ->
  svg.flatten image = Ok parts ->
  dest ∈ writable w ->
  exists w',
    convert source dest w = Ok w'
    /\ dxf_files w' !! dest
       = Some (fmap (M:=list) (flipped_y (bbox_max_y image))
                 <$> (filter (fun part => svg.has_segments part = true)
                             parts ≫= svg.segments))
    /\ (Forall (fun part => svg.has_segments part = false) parts ->
        dxf_files w' !! dest = Some []).
Proof.
  intros Hf Hp Hd.
  destruct (convert_saved source dest w image parts Hf Hp Hd)
    as (w' & Hc & Hs & _).
  exists w'. split; [exact Hc|]. unfold all_segments in Hs.
  rewrite Hp in Hs. split.
  - rewrite segments_of_path_bearing. exact Hs.
  - intros Hall. rewrite Hs, (opaque_segments _ Hall). reflexivity.
Qed.

(** The exception of [image.flatten()] is the exception of [convert],
    which saves nothing then. *)
Lemma convert_flatten_raises (source dest : string) (w : world)
    (image : svg.image) (e : exn) :
  svg_files w !! (cwd w, source) = Some image ->
  svg.flatten image = Raise e ->
  convert source dest w = Raise e.
Proof.
  intros Hf Hp. unfold convert. rewrite Hf, Hp.
  destruct (svg.bbox image). reflexivity.
Qed.


(** C9: the saved drawing has exactly one polyline per segment of the
    flattened image, the i-th polyline being the transform of the i-th
    segment; a segment without points gives an empty polyline, which is
    appended like any other.  (The drawing is saved when the image
    flattens and the destination can be written.) *)
Theorem convert_one_polyline_per_segment (source dest : string) (w : world)
    (image : svg.image) (parts : list svg.part) :
  svg_files w !! (cwd w, source) = Some image ->
  svg.flatten image = Ok parts ->
  dest ∈ writable w ->
  exists w' (saved : list dxf.polyline),
    convert source dest w = Ok w'
    /\ dxf_files w' !! dest = Some saved
    /\ length saved = length (all_segments image)
    /\ forall (i : nat) (segment : list svg.Point),
         all_segments image !! i = Some segment ->
         saved !! i = Some (flipped_y (bbox_max_y image) <$> segment)
         /\ (segment = [] -> saved !! i = Some []).
Proof.
  intros Hf Hp Hd.
  destruct (convert_saved source dest w image parts Hf Hp Hd)
    as (w' & Hc & Hs & _).
  eexists w', _. split; [exact Hc|]. split; [exact Hs|]. split.
  - apply length_fmap.
  - intros i segment Hi.
    assert ((fmap (M:=list) (flipped_y (bbox_max_y image))
               <$> all_segments image) !! i
            = Some (flipped_y (bbox_max_y image) <$> segment)) as H.
    { rewrite list_lookup_fmap, Hi. reflexivity. }
    split; [exact H|]. intros ->. exact H.
Qed.

(** C10: the polyline appended for a segment has one point per point of
    the segment, in the same order, each the transform of its source
    point.  (The drawing is saved when the image flattens and the
    destination can be written.) *)
Theorem convert_preserves_points (source dest : string) (w : world)
    (image : svg.image) (parts : list svg.part) :
  svg_files w !! (cwd w, source) = Some image ->
  svg.flatten image = Ok parts ->
  dest ∈ writable w ->
  exists w' (saved : list dxf.polyline),
    convert source dest w = Ok w'
    /\ dxf_files w' !! dest = Some saved
    /\ forall (i : nat) (segment : list svg.Point),
         all_segments image !! i = Some segment ->
         exists line : dxf.polyline,
           saved !! i = Some line
           /\ length line = length segment
           /\ forall j : nat,
                line !! j = flipped_y (bbox_max_y image) <$> segment !! j.
Proof.
  intros Hf Hp Hd.
  destruct (convert_saved source dest w image parts Hf Hp Hd)
    as (w' & Hc & Hs & _).
  eexists w', _. split; [exact Hc|]. split; [exact Hs|].
  intros i segment Hi.
  exists (flipped_y (bbox_max_y image) <$> segment). split; [|split].
  - rewrite list_lookup_fmap, Hi. reflexivity.
  - apply length_fmap.
  - intros j. apply list_lookup_fmap.
Qed.

(** ** Traces *)

Section Traces.

Context {A Y : Type}.

Lemma and_then_assoc (t k l : trace Y) :
  and_then (and_then t k) l = and_then t (and_then k l).
Proof. induction t as [|y t IH|e]; simpl; congruence. Qed.

Lemma yields_and_then (t k : trace Y) :
  raised t = None -> yields (and_then t k) = yields t ++ yields k.
Proof.
  induction t as [|y t IH|e]; simpl; intros H;
    [reflexivity|rewrite IH by exact H; reflexivity|discriminate H].
Qed.

Lemma raised_and_then (t k : trace Y) :
  raised t = None -> raised (and_then t k) = raised k.
Proof.
  induction t as [|y t IH|e]; simpl; intros H;
    [reflexivity|exact (IH H)|discriminate H].
Qed.

Variable body : A -> trace Y.

Lemma for_each_app (l1 l2 : list A) :
  for_each body (l1 ++ l2)
  = and_then (for_each body l1) (for_each body l2).
Proof.
  induction l1 as [|a l1 IH]; [reflexivity|].
  change (and_then (body a) (for_each body (l1 ++ l2))
          = and_then (and_then (body a) (for_each body l1))
                     (for_each body l2)).
  rewrite IH, and_then_assoc. reflexivity.
Qed.

Lemma for_each_raised (l : list A) :
  Forall (fun a => raised (body a) = None) l ->
  raised (for_each body l) = None.
Proof.
  induction 1 as [|a l Ha _ IH]; [reflexivity|].
  change (raised (and_then (body a) (for_each body l)) = None).
  rewrite raised_and_then by exact Ha. exact IH.
Qed.

Lemma for_each_yields (l : list A) :
  Forall (fun a => raised (body a) = None) l ->
  yields (for_each body l) = l ≫= (fun a => yields (body a)).
Proof.
  induction 1 as [|a l Ha _ IH]; [reflexivity|].
  change (yields (and_then (body a) (for_each body l))
          = (a :: l) ≫= (fun a => yields (body a))).
  rewrite yields_and_then by exact Ha. rewrite IH, bind_cons.
  reflexivity.
Qed.

End Traces.

(** ** The locator *)

Lemma truthy_Some (v : option string) :
  truthy v = true -> exists s, v = Some s /\ s <> "".
Proof.
  destruct v as [s|]; simpl; [|discriminate].
  destruct (String.eqb_spec s ""); [discriminate|]. eauto.
Qed.

Section Locator.

Variable float_of_str : string -> option float.

Local Abbreviation page_body := (page_body float_of_str).
Local Abbreviation iter_pages_and_sizes :=
  (iter_pages_and_sizes float_of_str).

(** Where a yielded descriptor comes from. *)
Lemma page_body_yield (page : element) (d : item) :
  d ∈ yields (page_body page) ->
  exists (illustration : element) (w h : string),
    pop (xpath_illustrations page) = Some illustration
    /\ get illustration "FILEID" = Some (vectorFileRef d)
    /\ vectorFileRef d <> ""
    /\ get page "WIDTH" = Some w /\ w <> ""
    /\ float_of_str w = Some (width d)
    /\ get page "HEIGHT" = Some h /\ h <> ""
    /\ float_of_str h = Some (height d).
Proof.
  unfold page_body.
  destruct (pop (xpath_illustrations page)) as [ill|];
    [|intros H; inversion H].
  destruct (truthy (get page "WIDTH")) eqn:Hw;
    [|intros H; inversion H].
  destruct (truthy (get page "HEIGHT")) eqn:Hh;
    [|intros H; inversion H].
  destruct (truthy (get ill "FILEID")) eqn:Hp;
    [|intros H; inversion H].
  destruct (truthy_Some _ Hw) as (w & Gw & Hw').
  destruct (truthy_Some _ Hh) as (h & Gh & Hh').
  destruct (truthy_Some _ Hp) as (path & Gp & Hp').
  rewrite Gw, Gh, Gp. simpl.
  destruct (float_of_str w) as [fw|] eqn:Ew; [|intros H; inversion H].
  destruct (float_of_str h) as [fh|] eqn:Eh; [|intros H; inversion H].
  simpl. intros H. apply list_elem_of_singleton in H. subst d.
  exists ill, w, h. simpl. repeat split; assumption || reflexivity.
Qed.

(** A page with an illustration region never raises. *)
Lemma page_body_no_raise (page : element) :
  length (xpath_illustrations page) <> 0 ->
  raised (page_body page) = None.
Proof.
  intros Hl. unfold page_body, pop.
  destruct (last_is_Some (xpath_illustrations page)) as [_ H].
  destruct H as [ill ->].
  { intros E. rewrite E in Hl. apply Hl. reflexivity. }
  destruct (_ && _); [|reflexivity].
  destruct (get page "WIDTH"), (get page "HEIGHT"),
    (get ill "FILEID"); try reflexivity.
  destruct (float_of_str _); [|reflexivity].
  destruct (float_of_str _); reflexivity.
Qed.

Lemma pages_no_raise (alto_xml : element) :
  Forall (fun page => raised (page_body page) = None)
         (xpath_pages alto_xml).
Proof.
  apply Forall_forall. intros page Hp. unfold xpath_pages in Hp.
  apply list_elem_of_filter in Hp. destruct Hp as [[_ Hl] _].
  apply page_body_no_raise, Hl.
Qed.

(** The locator never raises: every page is either yielded or
    skipped. *)
Lemma iter_pages_and_sizes_no_raise (alto_xml : element) :
  raised (iter_pages_and_sizes alto_xml) = None.
Proof. apply for_each_raised, pages_no_raise. Qed.

Lemma iter_pages_and_sizes_yields (alto_xml : element) :
  yields (iter_pages_and_sizes alto_xml)
  = xpath_pages alto_xml ≫= (fun page => yields (page_body page)).
Proof. apply for_each_yields, pages_no_raise. Qed.

(** A page with a bad size yields nothing. *)
Lemma page_body_bad_sizes (page : element) :
  bad_sizes float_of_str page -> yields (page_body page) = [].
Proof.
  unfold bad_sizes, page_body. intros Hb.
  destruct (pop (xpath_illustrations page)) as [ill|]; [|reflexivity].
  destruct (get page "WIDTH") as [w|], (get page "HEIGHT") as [h|];
    simpl; try reflexivity.
  - destruct (_ && _); [|reflexivity].
    destruct (get ill "FILEID"); [|reflexivity].
    destruct Hb as [-> | Hh]; [reflexivity|].
    rewrite Hh. destruct (float_of_str w); reflexivity.
  - rewrite andb_false_r. reflexivity.
Qed.

End Locator.

(** C3 (as amended): every descriptor the locator yields comes from a page
    with an illustration region, and its vector-file reference is the
    FILEID of the last illustration region of that page in document order;
    a page yields at most one descriptor, so the earlier regions are
    ignored. *)
Theorem locator_takes_last_illustration
    (float_of_str : string -> option float) (alto_xml : element)
    (d : item) :
  d ∈ yields (iter_pages_and_sizes float_of_str alto_xml) ->
  exists (page illustration : element) (earlier : list element),
    page ∈ xpath_pages alto_xml
    /\ xpath_illustrations page = earlier ++ [illustration]
    /\ get illustration "FILEID" = Some (vectorFileRef d)
    /\ yields (page_body float_of_str page) = [d].
Proof.
  rewrite iter_pages_and_sizes_yields. intros H.
  apply list_elem_of_bind in H. destruct H as (page & Hd & Hp).
  destruct (page_body_yield _ _ _ Hd)
    as (ill & w & h & Hpop & Hid & _ & Hw & _ & Ew & Hh & _ & Eh).
  apply last_Some in Hpop. destruct Hpop as [earlier Hpop].
  exists page, ill, earlier. repeat split; trivial.
  revert Hd. unfold page_body. rewrite Hpop.
  unfold pop. rewrite last_snoc, Hw, Hh, Hid, Ew, Eh.
  destruct (_ && _); [|intros H; inversion H].
  simpl. intros H. apply list_elem_of_singleton in H. rewrite H.
  destruct d as [path [fw fh]]. reflexivity.
Qed.

Lemma locator_takes_last_illustration_witness :
  exists (page illustration : element) (earlier : list element),
    page ∈ xpath_pages Sample.two_regions
    /\ xpath_illustrations page = earlier ++ [illustration]
    /\ get illustration "FILEID"
       = Some (vectorFileRef ("p2.svg", (of_int 612, of_int 792)))
    /\ yields (page_body Sample.float_of_int_literal page)
       = [("p2.svg", (of_int 612, of_int 792))].
Proof.
  apply (locator_takes_last_illustration Sample.float_of_int_literal
           Sample.two_regions ("p2.svg", (of_int 612, of_int 792))).
  vm_compute. left.
Defined.

(** C3 fails as stated: on a page with the regions p1.svg and p2.svg, in
    this order, the descriptor refers to p2.svg, not to the first
    region. *)
Lemma locator_first_illustration_counterexample :
  exists (page first : element),
    xpath_pages Sample.two_regions = [page]
    /\ length (xpath_illustrations page) = 2
    /\ head (xpath_illustrations page) = Some first
    /\ get first "FILEID" = Some "p1.svg"
    /\ (vectorFileRef <$>
          yields (iter_pages_and_sizes Sample.float_of_int_literal
                    Sample.two_regions)) = ["p2.svg"].
Proof.
  eexists _, _. repeat split; vm_compute; reflexivity.
Qed.

(** C5 (as amended): the locator never aborts, and every descriptor it
    yields has a non-empty vector-file reference and a width and a height
    that are the floats parsed from the non-empty WIDTH and HEIGHT
    attributes of its page; whether they are positive is not checked. *)
Theorem locator_yields_parsed_sizes
    (float_of_str : string -> option float) (alto_xml : element)
    (d : item) :
  d ∈ yields (iter_pages_and_sizes float_of_str alto_xml) ->
  raised (iter_pages_and_sizes float_of_str alto_xml) = None
  /\ vectorFileRef d <> ""
  /\ exists (page : element) (w h : string),
       page ∈ xpath_pages alto_xml
       /\ get page "WIDTH" = Some w /\ w <> ""
       /\ float_of_str w = Some (width d)
       /\ get page "HEIGHT" = Some h /\ h <> ""
       /\ float_of_str h = Some (height d).
Proof.
  intros H. split; [apply iter_pages_and_sizes_no_raise|].
  rewrite iter_pages_and_sizes_yields in H.
  apply list_elem_of_bind in H. destruct H as (page & Hd & Hp).
  destruct (page_body_yield _ _ _ Hd)
    as (ill & w & h & _ & _ & Hne & Hw & Hw' & Ew & Hh & Hh' & Eh).
  split; [exact Hne|]. exists page, w, h. repeat split; assumption.
Qed.

Lemma locator_yields_parsed_sizes_witness :
  raised (iter_pages_and_sizes Sample.float_of_int_literal Sample.one_page)
  = None
  /\ vectorFileRef ("p1.svg", (of_int 612, of_int 792)) <> ""
  /\ exists (page : element) (w h : string),
       page ∈ xpath_pages Sample.one_page
       /\ get page "WIDTH" = Some w /\ w <> ""
       /\ Sample.float_of_int_literal w
          = Some (width ("p1.svg", (of_int 612, of_int 792)))
       /\ get page "HEIGHT" = Some h /\ h <> ""
       /\ Sample.float_of_int_literal h
          = Some (height ("p1.svg", (of_int 612, of_int 792))).
Proof.
  apply (locator_yields_parsed_sizes Sample.float_of_int_literal
           Sample.one_page ("p1.svg", (of_int 612, of_int 792))).
  vm_compute. left.
Defined.

(** C5 fails as stated: a page declared with WIDTH="-5" and HEIGHT="0" is
    yielded, with the width -5.0 and the height 0.0. *)
Lemma locator_positive_sizes_counterexample :
  yields (iter_pages_and_sizes Sample.float_of_int_literal
            Sample.negative_size)
  = [("p1.svg", (SFopp (of_int 5), zero))]
  /\ ltb zero (width ("p1.svg", (SFopp (of_int 5), zero))) = false
  /\ ltb zero (height ("p1.svg", (SFopp (of_int 5), zero))) = false.
Proof. repeat split; vm_compute; reflexivity. Qed.

(** C6: a page record whose WIDTH or HEIGHT is missing or does not parse
    yields no descriptor, and the locator goes on: it does not raise, and
    it yields what the pages before yield, then what the pages after
    yield. *)
Theorem locator_skips_bad_sizes
    (float_of_str : string -> option float) (alto_xml page : element)
    (before after : list element) :
  xpath_pages alto_xml = before ++ page :: after ->
  bad_sizes float_of_str page ->
  yields (page_body float_of_str page) = []
  /\ raised (iter_pages_and_sizes float_of_str alto_xml) = None
  /\ yields (iter_pages_and_sizes float_of_str alto_xml)
     = (before ≫= (fun p => yields (page_body float_of_str p)))
       ++ (after ≫= (fun p => yields (page_body float_of_str p))).
Proof.
  intros Hx Hb.
  pose proof (page_body_bad_sizes float_of_str page Hb) as Hy.
  split; [exact Hy|]. split; [apply iter_pages_and_sizes_no_raise|].
  rewrite iter_pages_and_sizes_yields, Hx, bind_app, bind_cons, Hy.
  reflexivity.
Qed.

Lemma locator_skips_bad_sizes_witness :
  yields (page_body Sample.float_of_int_literal
            (Element (alto "Page") {[ "WIDTH" := "612" ]}
                     [Sample.Illustration "px.svg"])) = []
  /\ raised (iter_pages_and_sizes Sample.float_of_int_literal
               Sample.no_height) = None
  /\ yields (iter_pages_and_sizes Sample.float_of_int_literal
               Sample.no_height)
     = ([Sample.Page "612" "792" [Sample.Illustration "p1.svg"]]
          ≫= (fun p => yields (page_body Sample.float_of_int_literal p)))
       ++ ([Sample.Page "612" "792" [Sample.Illustration "p2.svg"]]
             ≫= (fun p => yields (page_body Sample.float_of_int_literal p))).
Proof.
  apply (locator_skips_bad_sizes Sample.float_of_int_literal
           Sample.no_height).
  - vm_compute. reflexivity.
  - vm_compute. exact I.
Defined.

Lemma run_body_transform_witness :
  exists w',
    run_body "/out/a.dxf" 0 ("p1.svg", (of_int 612, of_int 792))
             Sample.extracted
    = Ok ((0 <? 0)%nat, w')
    /\ dxf_files w' !! "/out/a.dxf"
       = Some (fmap (M:=list) (toDestination (bbox_max_y Sample.p1_svg))
                 <$> all_segments Sample.p1_svg).
Proof.
  apply (run_body_transform "/out/a.dxf" "p1.svg"
           (of_int 612, of_int 792) 0 Sample.extracted Sample.p1_svg
           [svg.PathBearing "Path" [[Sample.pt 0 0; Sample.pt 72 100]]]).
  - vm_compute. reflexivity.
  - reflexivity.
  - apply (bool_decide_unpack _). vm_compute. exact I.
Defined.

Lemma convert_drops_non_geometric_witness :
  exists w',
    convert "p2.svg" "/out/a.dxf" Sample.extracted = Ok w'
    /\ dxf_files w' !! "/out/a.dxf"
       = Some [[flipped_y (of_int 36) (Sample.pt 0 0);
                flipped_y (of_int 36) (Sample.pt 36 36)]; []].
Proof.
  destruct (convert_drops_non_geometric "p2.svg" "/out/a.dxf"
              Sample.extracted Sample.p2_svg
              [svg.Opaque "Text";
               svg.PathBearing "Rect"
                 [[Sample.pt 0 0; Sample.pt 36 36]; []]])
    as (w' & Hc & Hs & _).
  - vm_compute. reflexivity.
  - reflexivity.
  - apply (bool_decide_unpack _). vm_compute. exact I.
  - exists w'. split; [exact Hc|]. rewrite Hs. reflexivity.
Defined.

Lemma convert_one_polyline_per_segment_witness :
  exists w' (saved : list dxf.polyline),
    convert "p2.svg" "/out/a.dxf" Sample.extracted = Ok w'
    /\ dxf_files w' !! "/out/a.dxf" = Some saved
    /\ length saved = 2
    /\ saved !! 1 = Some [].
Proof.
  destruct (convert_one_polyline_per_segment "p2.svg" "/out/a.dxf"
              Sample.extracted Sample.p2_svg
              [svg.Opaque "Text";
               svg.PathBearing "Rect"
                 [[Sample.pt 0 0; Sample.pt 36 36]; []]])
    as (w' & saved & Hc & Hs & Hl & Hi).
  - vm_compute. reflexivity.
  - reflexivity.
  - apply (bool_decide_unpack _). vm_compute. exact I.
  - exists w', saved. split; [exact Hc|]. split; [exact Hs|].
    split; [exact Hl|]. apply (Hi 1 []); reflexivity.
Defined.

Lemma convert_preserves_points_witness :
  exists w' (saved : list dxf.polyline) (line : dxf.polyline),
    convert "p1.svg" "/out/a.dxf" Sample.extracted = Ok w'
    /\ dxf_files w' !! "/out/a.dxf" = Some saved
    /\ saved !! 0 = Some line
    /\ length line = 2
    /\ line !! 1 = Some (flipped_y (of_int 100) (Sample.pt 72 100)).
Proof.
  destruct (convert_preserves_points "p1.svg" "/out/a.dxf"
              Sample.extracted Sample.p1_svg
              [svg.PathBearing "Path" [[Sample.pt 0 0; Sample.pt 72 100]]])
    as (w' & saved & Hc & Hs & Hi).
  - vm_compute. reflexivity.
  - reflexivity.
  - apply (bool_decide_unpack _). vm_compute. exact I.
  - destruct (Hi 0 [Sample.pt 0 0; Sample.pt 72 100])
      as (line & H0 & Hl & Hj); [reflexivity|].
    exists w', saved, line. split; [exact Hc|]. split; [exact Hs|].
    split; [exact H0|]. split; [exact Hl|]. rewrite Hj. reflexivity.
Defined.

(** C1 fails as stated: the page is declared 792 high and its drawing
    reaches up to y = 100; the saved points are flipped about 100, which is
    not what flipping about the declared 792 gives. *)
Lemma page_height_counterexample :
  yields (iter_pages_and_sizes Sample.float_of_int_literal Sample.one_page)
  = [("p1.svg", (of_int 612, of_int 792))]
  /\ saved_drawing (Sample.run 3 "/in/one.pdf" "/out/a.dxf" Sample.start)
                   "/out/a.dxf"
     = Some (fmap (M:=list) (toDestination (of_int 100))
               <$> all_segments Sample.p1_svg)
  /\ (fmap (M:=list) (toDestination (of_int 100))
        <$> all_segments Sample.p1_svg)
     <> (fmap (M:=list) (toDestination (of_int 792))
           <$> all_segments Sample.p1_svg).
Proof.
  split; [vm_compute; reflexivity|].
  split; [vm_compute; reflexivity|].
  vm_compute. discriminate.
Qed.

(** ** The temporary directory and the loop of [run] *)

Section Iteration.

Variable float_of_str : string -> option float.
Variable mkdtemp : world -> string.
Variable pdfalto : string -> list (string * svg.image) * option element.

Local Abbreviation step := (next float_of_str mkdtemp pdfalto).
Local Abbreviation loop := (for_enumerate float_of_str mkdtemp pdfalto).
Local Abbreviation main := (run float_of_str mkdtemp pdfalto).
Local Abbreviation first_yield := (at_first_yield mkdtemp).

(** The loop sees the generator through [next] only. *)
Lemma for_enumerate_ext (fuel : nat)
    (body : nat -> item -> world -> result (bool * world)) (c : nat)
    (g g' : gen_state) (w w' : world) :
  step g w = step g' w' ->
  loop fuel body c g w = loop fuel body c g' w'.
Proof.
  intros H. destruct fuel; simpl; [reflexivity|]. rewrite H.
  reflexivity.
Qed.

Lemma next_created (source : string) (w : world) (alto_xml : element)
    (files : list (string * svg.image)) :
  pdfalto source = (files, Some alto_xml) ->
  step (Created source) w
  = step (Suspended (mkdtemp w) (cwd w)
            (iter_pages_and_sizes float_of_str alto_xml))
         (first_yield files w).
Proof. intros H. simpl. rewrite H. reflexivity. Qed.

(** A loop whose body neither breaks nor raises runs the suspended
    generator to its end, and the directory is gone then; the loop
    returns when the body has left the directory in place. *)
Lemma exhaust_suspended
    (body : nat -> item -> world -> result (bool * world))
    (tmpdir curdir : string) :
  (forall c it w, exists w', body c it w = Ok (false, w')) ->
  forall (t : trace item), raised t = None ->
  forall (fuel c : nat) (w : world),
    length (yields t) < fuel ->
    exists o w',
      loop fuel body c (Suspended tmpdir curdir t) w = Some (o, w')
      /\ (tmpdir ∉ dirs w')
      /\ (o = Returned \/ o = Uncaught FileNotFoundError).
Proof.
  intros Hbody t.
  induction t as [|it t IH|e]; intros Hr fuel c w Hfuel.
  - destruct fuel as [|fuel]; [inversion Hfuel|].
    cbn [for_enumerate next resume].
    destruct (bool_decide_reflect (tmpdir ∈ dirs (os_chdir curdir w)))
      as [Hin|Hout].
    + eexists _, _. split; [reflexivity|]. split; [|left; reflexivity].
      simpl. apply not_elem_of_difference. right.
      apply elem_of_singleton. reflexivity.
    + eexists _, _. split; [reflexivity|].
      split; [exact Hout|right; reflexivity].
  - destruct fuel as [|fuel]; [inversion Hfuel|]. simpl.
    destruct (Hbody c it w) as [w1 ->].
    apply IH; [exact Hr|]. simpl in Hfuel. lia.
  - discriminate Hr.
Qed.

(** [run] always returns within three resumptions of the generator. *)
Lemma run_returns (fuel : nat) (pdf dxf : string) (w : world) :
  3 <= fuel -> is_Some (main fuel pdf dxf w).
Proof.
  intros Hf. destruct fuel as [|[|[|fuel]]]; try lia.
  unfold run. cbn [for_enumerate].
  destruct (step (Created pdf) w) as [[[it| |e] g] w1];
    try (eexists; reflexivity).
  unfold run_body at 1. destruct it as [svg_path size_wh].
  destruct (convert svg_path dxf w1) as [w2|e]; [|eexists; reflexivity].
  cbn [Nat.ltb Nat.leb].
  destruct (step g w2) as [[[it| |e] g'] w3]; try (eexists; reflexivity).
  unfold run_body at 1. destruct it as [svg_path' size_wh'].
  destruct (convert svg_path' dxf w3) as [w4|e]; eexists; reflexivity.
Qed.

End Iteration.

(** C4, on three runs: on a PDF with one illustrated page the iteration
    is exhausted and the temporary directory is removed; on a PDF with two
    illustrated pages [run] breaks at the second one and the directory is
    left behind, with the process still inside it; when the extraction
    subprocess fails the directory is left behind as well. *)
Theorem tmpdir_left_behind :
  (fst <$> Sample.run 3 "/in/one.pdf" "/out/a.dxf" Sample.start
   = Some Returned
   /\ Sample.tmp ∉ left_dirs
        (Sample.run 3 "/in/one.pdf" "/out/a.dxf" Sample.start))
  /\ (fst <$> Sample.run 3 "/in/two.pdf" "/out/a.dxf" Sample.start
      = Some Returned
      /\ Sample.tmp ∈ left_dirs
           (Sample.run 3 "/in/two.pdf" "/out/a.dxf" Sample.start))
  /\ (fst <$> Sample.run 3 "/in/broken.pdf" "/out/a.dxf" Sample.start
      = Some (Uncaught CalledProcessError)
      /\ Sample.tmp ∈ left_dirs
           (Sample.run 3 "/in/broken.pdf" "/out/a.dxf" Sample.start)).
Proof.
  repeat split; try (vm_compute; reflexivity);
    apply (bool_decide_unpack _); vm_compute; exact I.
Qed.

(** C2, on a PDF with two illustrated pages: the locator yields both
    pages, [run] converts both, and the drawing left at the destination
    holds the polylines of the second page, which are not those of the
    first. *)
Theorem run_two_pages_saves_second :
  (vectorFileRef <$>
     yields (iter_pages_and_sizes Sample.float_of_int_literal
               Sample.two_pages)) = ["p1.svg"; "p2.svg"]
  /\ saved_drawing (Sample.run 3 "/in/two.pdf" "/out/a.dxf" Sample.start)
                   "/out/a.dxf"
     = Some (fmap (M:=list) (flipped_y (bbox_max_y Sample.p2_svg))
               <$> all_segments Sample.p2_svg)
  /\ (fmap (M:=list) (flipped_y (bbox_max_y Sample.p2_svg))
        <$> all_segments Sample.p2_svg)
     <> (fmap (M:=list) (flipped_y (bbox_max_y Sample.p1_svg))
           <$> all_segments Sample.p1_svg).
Proof.
  split; [vm_compute; reflexivity|].
  split; [vm_compute; reflexivity|].
  vm_compute. discriminate.
Qed.


(** * Further properties *)

(** ** The transformer on finite and on negated coordinates *)

Lemma binary_round_not_nan (s : bool) (m : positive) (e : Z) :
  is_nan (binary_round prec emax s m e) = false.
Proof.
  unfold binary_round. destruct (shl_align _ _ _) as [mz ez].
  apply binary_round_aux_not_nan. lia.
Qed.

Lemma binary_normalize_not_nan (m e : Z) (szero : bool) :
  is_nan (binary_normalize prec emax m e szero) = false.
Proof.
  destruct m; simpl; [reflexivity| |]; apply binary_round_not_nan.
Qed.

Lemma sub_finite_not_nan (a b : float) :
  is_finite a = true -> is_finite b = true -> is_nan (sub a b) = false.
Proof.
  destruct a as [sa|sa| |sa ma ea], b as [sb|sb| |sb mb eb];
    try discriminate; intros _ _.
  - destruct sa, sb; reflexivity.
  - reflexivity.
  - reflexivity.
  - unfold sub, SFsub. apply binary_normalize_not_nan.
Qed.

Lemma finite_not_nan (a : float) : is_finite a = true -> is_nan a = false.
Proof. destruct a; try discriminate; reflexivity. Qed.

(** X1: the transform of a point never makes up a NaN: the x of the result
    is a number whenever the source x is one (finite or infinite), and the
    y of the result is a number whenever the source y and the flip height
    are finite. *)
Theorem flipped_y_not_nan (max_y : float) (p : svg.Point) :
  (is_nan (svg.x p) = false -> is_nan (fst (flipped_y max_y p)) = false)
  /\ (is_finite max_y = true -> is_finite (svg.y p) = true ->
      is_nan (snd (flipped_y max_y p)) = false).
Proof.
  split.
  - intros Hx. apply scale_not_nan, Hx.
  - intros Hm Hy. apply scale_not_nan, sub_finite_not_nan; assumption.
Qed.

Lemma flipped_y_not_nan_witness :
  is_nan (fst (flipped_y (of_int 792) (Sample.pt 72 100))) = false
  /\ is_nan (snd (flipped_y (of_int 792) (Sample.pt 72 100))) = false.
Proof.
  split.
  - apply (proj1 (flipped_y_not_nan (of_int 792) (Sample.pt 72 100))).
    reflexivity.
  - apply (proj2 (flipped_y_not_nan (of_int 792) (Sample.pt 72 100)));
      reflexivity.
Defined.

Lemma binary_round_aux_opp (s : bool) (m e : Z) (l : location) :
  binary_round_aux prec emax (negb s) m e l
  = SFopp (binary_round_aux prec emax s m e l).
Proof.
  unfold binary_round_aux.
  destruct (shr_fexp prec emax m e l) as [mrs1 e1].
  destruct (shr_fexp prec emax _ e1 loc_Exact) as [mrs2 e2].
  destruct (shr_m mrs2); try reflexivity.
  destruct (Z.leb e2 (emax - prec)); reflexivity.
Qed.

Lemma div_opp (a : float) (s : bool) (m : positive) (e : Z) :
  div (SFopp a) (S754_finite s m e) = SFopp (div a (S754_finite s m e)).
Proof.
  destruct a as [sa|sa| |sa ma ea]; try (destruct sa, s; reflexivity);
    try reflexivity.
  unfold div, SFdiv. cbn [SFopp].
  destruct (SFdiv_core_binary _ _ _ _ _ _) as [[mz ez] lz].
  destruct sa, s; cbn [xorb negb];
    first [ apply (binary_round_aux_opp false)
          | apply (binary_round_aux_opp true) ].
Qed.

Lemma mul_opp (a : float) (s : bool) (m : positive) (e : Z) :
  mul (SFopp a) (S754_finite s m e) = SFopp (mul a (S754_finite s m e)).
Proof.
  destruct a as [sa|sa| |sa ma ea]; try (destruct sa, s; reflexivity);
    try reflexivity.
  unfold mul, SFmul. cbn [SFopp].
  destruct sa, s; cbn [xorb negb];
    first [ apply (binary_round_aux_opp false)
          | apply (binary_round_aux_opp true) ].
Qed.

(** X2: the x transform is odd and does not clamp: negating the source x
    negates the transformed x (same magnitude, opposite sign, signed zeros
    and infinities included; a NaN stays a NaN, whose sign is not
    modelled), and leaves the transformed y as it is. *)
Theorem flipped_y_negated_x (max_y a b : float) :
  flipped_y max_y {| svg.x := SFopp a; svg.y := b |}
  = (SFopp (fst (flipped_y max_y {| svg.x := a; svg.y := b |})),
     snd (flipped_y max_y {| svg.x := a; svg.y := b |})).
Proof.
  unfold flipped_y. cbn [svg.x svg.y fst snd]. f_equal.
  rewrite f72_value. unfold f25_4. rewrite div_opp, mul_opp. reflexivity.
Qed.

(** ** The locator: which pages are yielded, and in which order *)

Lemma element_children_ind (P : element -> Prop) :
  (forall t a cs, Forall P cs -> P (Element t a cs)) ->
  forall e, P e.
Proof.
  intros H. fix IH 1. intros [t a cs]. apply H.
  induction cs as [|c cs IHcs]; constructor; [apply IH|exact IHcs].
Qed.

Lemma descendants_children (t : string) (a : gmap string string)
    (cs : list element) (d : element) :
  d ∈ descendants (Element t a cs)
  <-> exists c, c ∈ cs /\ (d = c \/ d ∈ descendants c).
Proof.
  cbn [descendants]. rewrite list_elem_of_In, in_flat_map. split.
  - intros (c & Hc & Hd). exists c. rewrite list_elem_of_In. split; trivial.
    destruct Hd as [->|Hd]; [left; reflexivity|right].
    apply list_elem_of_In, Hd.
  - intros (c & Hc & Hd). exists c. split; [apply list_elem_of_In, Hc|].
    destruct Hd as [->|Hd]; [left; reflexivity|right].
    apply list_elem_of_In, Hd.
Qed.

(** A descendant of a descendant is a descendant. *)
Lemma descendants_trans (root e d : element) :
  e ∈ descendants root -> d ∈ descendants e -> d ∈ descendants root.
Proof.
  revert e d. induction root as [t a cs IH] using element_children_ind.
  intros e d He Hd.
  apply descendants_children in He. destruct He as (c & Hc & He).
  apply descendants_children. exists c. split; [exact Hc|]. right.
  destruct He as [->|He]; [exact Hd|].
  rewrite Forall_forall in IH. exact (IH c Hc e d He Hd).
Qed.

Lemma filter_none {A : Type} (P : A -> Prop) `{!forall a, Decision (P a)}
    (l : list A) :
  Forall (fun a => ~ P a) l -> filter P l = [].
Proof.
  induction 1 as [|a l Ha _ IH]; [reflexivity|].
  rewrite filter_cons_False by exact Ha. exact IH.
Qed.

Lemma truthy_nonempty (s : string) : s <> "" -> truthy (Some s) = true.
Proof.
  intros H. simpl. destruct (String.eqb_spec s ""); [contradiction|].
  reflexivity.
Qed.

Lemma page_body_at_most_one (float_of_str : string -> option float)
    (page : element) :
  length (yields (page_body float_of_str page)) <= 1.
Proof.
  unfold page_body.
  destruct (pop _) as [ill|]; [|simpl; lia].
  destruct (_ && _); [|simpl; lia].
  destruct (get page "WIDTH"), (get page "HEIGHT"), (get ill "FILEID");
    try (simpl; lia).
  destruct (float_of_str _); [|simpl; lia].
  destruct (float_of_str _); simpl; lia.
Qed.

(** X3: a page whose WIDTH and HEIGHT are non-empty and parse, and whose
    last illustration region has a non-empty FILEID, is yielded as
    (FILEID, (width, height)), between what the pages before it and the
    pages after it yield. *)
Theorem locator_yields_valid_page
    (float_of_str : string -> option float) (alto_xml page : element)
    (before after : list element) (earlier : list element)
    (illustration : element) (w h svg_path : string) (fw fh : float) :
  xpath_pages alto_xml = before ++ page :: after ->
  xpath_illustrations page = earlier ++ [illustration] ->
  get page "WIDTH" = Some w -> w <> "" -> float_of_str w = Some fw ->
  get page "HEIGHT" = Some h -> h <> "" -> float_of_str h = Some fh ->
  get illustration "FILEID" = Some svg_path -> svg_path <> "" ->
  yields (iter_pages_and_sizes float_of_str alto_xml)
  = (before ≫= (fun p => yields (page_body float_of_str p)))
    ++ (svg_path, (fw, fh))
    :: (after ≫= (fun p => yields (page_body float_of_str p))).
Proof.
  intros Hx Hi Hw Hw' Ew Hh Hh' Eh Hp Hp'.
  rewrite iter_pages_and_sizes_yields, Hx, bind_app, bind_cons.
  f_equal. unfold page_body at 1, pop.
  rewrite Hi, last_snoc, Hw, Hh, Hp, Ew, Eh.
  rewrite !truthy_nonempty by assumption. reflexivity.
Qed.

Lemma locator_yields_valid_page_witness :
  yields (iter_pages_and_sizes Sample.float_of_int_literal
            Sample.two_regions)
  = ([] ≫= (fun p => yields (page_body Sample.float_of_int_literal p)))
    ++ ("p2.svg", (of_int 612, of_int 792))
    :: ([] ≫= (fun p => yields (page_body Sample.float_of_int_literal p))).
Proof.
  apply (locator_yields_valid_page Sample.float_of_int_literal
           Sample.two_regions
           (Sample.Page "612" "792"
              [Sample.Illustration "p1.svg"; Sample.Illustration "p2.svg"])
           [] [] [Sample.Illustration "p1.svg"]
           (Sample.Illustration "p2.svg") "612" "792" "p2.svg");
    try (vm_compute; reflexivity); discriminate.
Defined.

(** X4: a page whose last illustration region has no FILEID, or an empty
    one, is skipped without an error, whatever FILEID the earlier regions
    of the page have. *)
Theorem locator_skips_missing_fileid
    (float_of_str : string -> option float) (page : element)
    (earlier : list element) (illustration : element) :
  xpath_illustrations page = earlier ++ [illustration] ->
  truthy (get illustration "FILEID") = false ->
  page_body float_of_str page = Stop.
Proof.
  intros Hi Hp. unfold page_body, pop.
  rewrite Hi, last_snoc, Hp, andb_false_r. reflexivity.
Qed.

Lemma locator_skips_missing_fileid_witness :
  page_body Sample.float_of_int_literal
    (Sample.Page "612" "792"
       [Sample.Illustration "p1.svg";
        Element (alto "Illustration") ∅ []])
  = Stop.
Proof.
  apply (locator_skips_missing_fileid Sample.float_of_int_literal _
           [Sample.Illustration "p1.svg"]
           (Element (alto "Illustration") ∅ []));
    vm_compute; reflexivity.
Defined.

(** X5: the locator yields at most one descriptor per selected page, in
    the document order of the pages: what it yields is the concatenation
    of what each page yields, and never more descriptors than there are
    pages with an illustration. *)
Theorem locator_document_order
    (float_of_str : string -> option float) (alto_xml : element) :
  yields (iter_pages_and_sizes float_of_str alto_xml)
  = xpath_pages alto_xml ≫= (fun p => yields (page_body float_of_str p))
  /\ length (yields (iter_pages_and_sizes float_of_str alto_xml))
     <= length (xpath_pages alto_xml).
Proof.
  pose proof (iter_pages_and_sizes_yields float_of_str alto_xml) as H.
  split; [exact H|]. rewrite H. clear H.
  generalize (xpath_pages alto_xml). intros pages.
  induction pages as [|page pages IH]; [reflexivity|].
  rewrite bind_cons, length_app. cbn [length].
  pose proof (page_body_at_most_one float_of_str page). lia.
Qed.

(** X6: a document without any Illustration element below its root selects
    no page: the locator stops at once, yielding nothing. *)
Theorem locator_no_illustration
    (float_of_str : string -> option float) (alto_xml : element) :
  Forall (fun e => tag e <> alto "Illustration") (descendants alto_xml) ->
  iter_pages_and_sizes float_of_str alto_xml = Stop.
Proof.
  intros Hno. rewrite Forall_forall in Hno.
  assert (forall e, e ∈ alto_xml :: descendants alto_xml ->
                    xpath_illustrations e = []) as Hnone.
  { intros e He. unfold xpath_illustrations.
    apply filter_none, Forall_forall. intros d Hd. apply Hno.
    apply elem_of_cons in He. destruct He as [->|He]; [exact Hd|].
    exact (descendants_trans _ _ _ He Hd). }
  unfold iter_pages_and_sizes, xpath_pages.
  replace (filter _ (alto_xml :: descendants alto_xml)) with (@nil element);
    [reflexivity|].
  symmetry. apply filter_none, Forall_forall. intros e He [_ Hl].
  apply Hl. rewrite (Hnone e He). reflexivity.
Qed.

Lemma locator_no_illustration_witness :
  iter_pages_and_sizes Sample.float_of_int_literal
    (Sample.Layout [Sample.Page "612" "792" []])
  = Stop.
Proof.
  apply (locator_no_illustration Sample.float_of_int_literal
           (Sample.Layout [Sample.Page "612" "792" []])).
  repeat constructor; vm_compute; discriminate.
Defined.

(** ** [convert]: what it leaves alone *)

Lemma convert_inv (source dest : string) (w w' : world) :
  convert source dest w = Ok w' ->
  exists image parts,
    svg_files w !! (cwd w, source) = Some image
    /\ svg.flatten image = Ok parts
    /\ dest ∈ writable w
    /\ w' = store (foldl (add_part (bbox_max_y image)) (dxf.new dest)
                     parts) w.
Proof.
  intros H. destruct (svg_files w !! (cwd w, source)) as [image|] eqn:Hf;
    [|unfold convert in H; rewrite Hf in H; discriminate H].
  destruct (svg.flatten image) as [parts|e] eqn:Hp;
    [|rewrite (convert_flatten_raises _ _ _ _ _ Hf Hp) in H;
      discriminate H].
  destruct (decide (dest ∈ writable w)) as [Hd|Hd].
  - rewrite (convert_eq _ _ _ _ _ Hf Hp Hd) in H. injection H as <-.
    exists image, parts. repeat split; trivial.
  - unfold convert, save in H. rewrite Hf, Hp in H.
    destruct (svg.bbox image) as [bmim bmax].
    rewrite add_parts_name in H. cbn [dxf.new dxf.name] in H.
    rewrite bool_decide_eq_false_2 in H by exact Hd. discriminate H.
Qed.

Lemma convert_frame (source dest other : string) (w w' : world) :
  convert source dest w = Ok w' -> other <> dest ->
  dxf_files w' !! other = dxf_files w !! other.
Proof.
  intros H Hne.
  destruct (convert_inv _ _ _ _ H) as (image & parts & _ & _ & _ & ->).
  simpl. rewrite add_parts_name. simpl.
  apply lookup_insert_ne. congruence.
Qed.

(** X7: a successful [convert] changes nothing but the drawing at its
    destination: the current directory, the directories, the vector files
    and the drawings saved elsewhere are as before; and converting the same
    source again changes nothing at all, the drawing being rebuilt from
    scratch, not appended to. *)
Theorem convert_replaces_destination (source dest : string)
    (w w' : world) :
  convert source dest w = Ok w' ->
  cwd w' = cwd w /\ dirs w' = dirs w /\ svg_files w' = svg_files w
  /\ (forall other, other <> dest ->
      dxf_files w' !! other = dxf_files w !! other)
  /\ convert source dest w' = Ok w'.
Proof.
  intros H.
  destruct (convert_inv _ _ _ _ H) as (image & parts & Hf & Hp & Hd & Hw).
  split; [rewrite Hw; reflexivity|].
  split; [rewrite Hw; reflexivity|].
  split; [rewrite Hw; reflexivity|].
  split; [intros other Hne; exact (convert_frame _ _ _ _ _ H Hne)|].
  assert (svg_files w' !! (cwd w', source) = Some image) as Hf'.
  { rewrite Hw. exact Hf. }
  assert (dest ∈ writable w') as Hd'.
  { rewrite Hw. exact Hd. }
  rewrite (convert_eq _ _ _ _ _ Hf' Hp Hd'). f_equal. rewrite Hw at 2.
  rewrite Hw. unfold store. simpl. rewrite insert_insert_eq. reflexivity.
Qed.

Lemma convert_replaces_destination_witness :
  exists w',
    convert "p1.svg" "/out/a.dxf" Sample.extracted = Ok w'
    /\ cwd w' = cwd Sample.extracted
    /\ dirs w' = dirs Sample.extracted
    /\ svg_files w' = svg_files Sample.extracted
    /\ (forall other, other <> "/out/a.dxf" ->
        dxf_files w' !! other = dxf_files Sample.extracted !! other)
    /\ convert "p1.svg" "/out/a.dxf" w' = Ok w'.
Proof.
  destruct (convert_saved "p1.svg" "/out/a.dxf" Sample.extracted
              Sample.p1_svg
              [svg.PathBearing "Path" [[Sample.pt 0 0; Sample.pt 72 100]]])
    as (w' & Hc & _).
  - vm_compute. reflexivity.
  - reflexivity.
  - apply (bool_decide_unpack _). vm_compute. exact I.
  - exists w'. split; [exact Hc|].
    exact (convert_replaces_destination _ _ _ _ Hc).
Defined.

(** ** [run]: every way it can end *)

Lemma saved_polylines (max_y : float) (dest : string)
    (parts : list svg.part) :
  dxf.name (foldl (add_part max_y) (dxf.new dest) parts) = dest
  /\ dxf.entities (foldl (add_part max_y) (dxf.new dest) parts)
     = (fmap (M:=list) (flipped_y max_y) <$> (parts ≫= svg.segments)).
Proof.
  split; [apply add_parts_name|]. rewrite add_parts_entities. reflexivity.
Qed.

Lemma stored_polylines (dest : string) (image : svg.image)
    (parts : list svg.part) (w : world) :
  svg.flatten image = Ok parts ->
  dxf_files (store (foldl (add_part (bbox_max_y image)) (dxf.new dest)
                      parts) w) !! dest
  = Some (fmap (M:=list) (flipped_y (bbox_max_y image))
            <$> all_segments image).
Proof.
  intros Hp. unfold all_segments. rewrite Hp.
  destruct (saved_polylines (bbox_max_y image) dest parts) as [Hn He].
  unfold store. simpl. rewrite Hn, He. apply lookup_insert_eq.
Qed.

(** What the final statements of the generator leave. *)
Lemma cleaned_up (tmpdir curdir : string) (w : world) :
  cwd (rmtree tmpdir (os_chdir curdir w)) = curdir
  /\ (tmpdir ∉ dirs (rmtree tmpdir (os_chdir curdir w)))
  /\ dxf_files (rmtree tmpdir (os_chdir curdir w)) = dxf_files w
  /\ forall name,
       svg_files (rmtree tmpdir (os_chdir curdir w)) !! (tmpdir, name)
       = None.
Proof.
  split; [reflexivity|]. split; [|split; [reflexivity|]].
  - simpl. apply not_elem_of_difference. right.
    apply elem_of_singleton. reflexivity.
  - intros name. simpl. apply map_lookup_filter_None. right.
    intros image _ Hne. apply Hne. reflexivity.
Qed.

Lemma resume_stop (tmpdir curdir : string) (w : world) :
  tmpdir ∈ dirs w ->
  resume tmpdir curdir Stop w
  = (StopIteration, Finished, rmtree tmpdir (os_chdir curdir w)).
Proof.
  intros Hin. unfold resume.
  rewrite bool_decide_eq_true_2 by exact Hin. reflexivity.
Qed.

Section Run.

Variable float_of_str : string -> option float.
Variable mkdtemp : world -> string.
Variable pdfalto : string -> list (string * svg.image) * option element.

Local Abbreviation step := (next float_of_str mkdtemp pdfalto).
Local Abbreviation loop := (for_enumerate float_of_str mkdtemp pdfalto).
Local Abbreviation main := (run float_of_str mkdtemp pdfalto).
Local Abbreviation first_yield := (at_first_yield mkdtemp).

Lemma first_yield_state (files : list (string * svg.image)) (w : world) :
  cwd (first_yield files w) = mkdtemp w
  /\ mkdtemp w ∈ dirs (first_yield files w)
  /\ dxf_files (first_yield files w) = dxf_files w
  /\ writable (first_yield files w) = writable w.
Proof.
  split; [reflexivity|]. split; [|split; reflexivity].
  simpl. apply elem_of_union_l, elem_of_singleton. reflexivity.
Qed.

(** Resuming the generator never touches a saved drawing. *)
Lemma next_dxf_files (g : gen_state) (w : world) :
  dxf_files (snd (step g w)) = dxf_files w.
Proof.
  destruct g as [source|tmpdir curdir rest|]; simpl; [| |reflexivity].
  - destruct (pdfalto source) as [files [alto_xml|]]; [|reflexivity].
    destruct (iter_pages_and_sizes float_of_str alto_xml);
      simpl; try reflexivity.
    destruct (bool_decide _); reflexivity.
  - destruct rest; simpl; try reflexivity.
    destruct (bool_decide _); reflexivity.
Qed.

Lemma loop_dxf_frame (dxf other : string) :
  other <> dxf ->
  forall (fuel c : nat) (g : gen_state) (w : world) (o : outcome)
         (w' : world),
    loop fuel (run_body dxf) c g w = Some (o, w') ->
    dxf_files w' !! other = dxf_files w !! other.
Proof.
  intros Hne. induction fuel as [|fuel IH]; intros c g w o w' H;
    [discriminate H|].
  cbn [for_enumerate] in H. pose proof (next_dxf_files g w) as Hn.
  destruct (step g w) as [[[it| |e] g1] w1]; simpl in Hn.
  - unfold run_body in H. destruct it as [svg_path size_wh].
    destruct (convert svg_path dxf w1) as [w2|e] eqn:Hc.
    + pose proof (convert_frame _ _ _ _ _ Hc Hne) as Hf.
      destruct (0 <? c)%nat.
      * injection H as _ <-. simpl. rewrite Hf, Hn. reflexivity.
      * rewrite (IH _ _ _ _ _ H), Hf, Hn. reflexivity.
    + injection H as _ <-. simpl. rewrite Hn. reflexivity.
  - injection H as _ <-. rewrite Hn. reflexivity.
  - injection H as _ <-. rewrite Hn. reflexivity.
Qed.

(** X8: however [run] ends, the only drawing it may have written is the
    one at its destination: every other saved drawing is as before. *)
Theorem run_writes_only_destination (fuel : nat) (pdf dxf other : string)
    (w w' : world) (o : outcome) :
  main fuel pdf dxf w = Some (o, w') ->
  other <> dxf ->
  dxf_files w' !! other = dxf_files w !! other.
Proof.
  intros H Hne. exact (loop_dxf_frame dxf other Hne _ _ _ _ _ _ H).
Qed.

(** X9: [run] resumes the generator at most twice, so it looks at no
    descriptor after the second, however many pages the document has: two
    resumptions always suffice for it to end, and allowing more changes
    nothing. *)
Theorem run_at_most_two_pages (fuel : nat) (pdf dxf : string) (w : world) :
  2 <= fuel ->
  main fuel pdf dxf w = main 2 pdf dxf w /\ is_Some (main 2 pdf dxf w).
Proof.
  intros Hf. destruct fuel as [|[|fuel]]; try lia.
  unfold run. cbn [for_enumerate].
  destruct (step (Created pdf) w) as [[[it| |e] g] w1];
    try (split; [reflexivity|eexists; reflexivity]).
  destruct (run_body dxf 0 it w1) as [[[|] w2]|e];
    try (split; [reflexivity|eexists; reflexivity]).
  destruct (step g w2) as [[[it'| |e] g'] w3];
    try (split; [reflexivity|eexists; reflexivity]).
  destruct (run_body dxf 1 it' w3) as [[[|] w4]|e] eqn:Hb;
    try (split; [reflexivity|eexists; reflexivity]).
  exfalso. unfold run_body in Hb. destruct it' as [svg_path size_wh].
  destruct (convert svg_path dxf w3); discriminate Hb.
Qed.

(** X10: when the extraction subprocess exits with a non-zero status,
    [run] ends with [CalledProcessError] before any descriptor is
    produced: no drawing is written, and the process is left inside the
    new temporary directory, which is not removed. *)
Theorem run_extraction_failure (fuel : nat) (pdf dxf : string) (w : world)
    (files : list (string * svg.image)) :
  pdfalto pdf = (files, None) ->
  exists w',
    main (S fuel) pdf dxf w = Some (Uncaught CalledProcessError, w')
    /\ dxf_files w' = dxf_files w
    /\ cwd w' = mkdtemp w
    /\ mkdtemp w ∈ dirs w'.
Proof.
  intros Hp. unfold run. cbn [for_enumerate next]. rewrite Hp.
  eexists. split; [reflexivity|]. split; [reflexivity|].
  split; [reflexivity|].
  simpl. apply elem_of_union_l, elem_of_singleton. reflexivity.
Qed.

(** X11: on a document without an illustrated page [run] returns without
    writing any drawing, not even an empty one; the temporary directory is
    removed and the current directory is the one [run] started in. *)
Theorem run_no_pages (fuel : nat) (pdf dxf : string) (w : world)
    (alto_xml : element) (files : list (string * svg.image)) :
  pdfalto pdf = (files, Some alto_xml) ->
  xpath_pages alto_xml = [] ->
  exists w',
    main (S fuel) pdf dxf w = Some (Returned, w')
    /\ dxf_files w' = dxf_files w
    /\ cwd w' = cwd w
    /\ (mkdtemp w ∉ dirs w').
Proof.
  intros Hp Hx. unfold run.
  rewrite (for_enumerate_ext _ _ _ _ _ _ _ _ _ _
             (next_created _ _ _ _ _ _ _ Hp)).
  unfold iter_pages_and_sizes. rewrite Hx.
  cbn [for_enumerate next for_each foldr].
  destruct (first_yield_state files w) as (_ & Hin & Hd & _).
  rewrite resume_stop by exact Hin.
  destruct (cleaned_up (mkdtemp w) (cwd w) (first_yield files w))
    as (Hc & Hout & Hdxf & _).
  eexists. split; [reflexivity|]. rewrite Hdxf, Hd.
  split; [reflexivity|]. split; [exact Hc|exact Hout].
Qed.

(** X12: when the locator yields exactly one descriptor, its vector file
    is there and flattens, and the destination can be written, [run]
    returns with that page's polylines saved at the destination, the
    temporary directory and the vector files in it removed, and the
    current directory restored. *)
Theorem run_one_page (fuel : nat) (pdf dxf : string) (w : world)
    (alto_xml : element) (files : list (string * svg.image))
    (svg_path : string) (size_wh : float * float) (image : svg.image)
    (parts : list svg.part) :
  pdfalto pdf = (files, Some alto_xml) ->
  iter_pages_and_sizes float_of_str alto_xml
  = Yield (svg_path, size_wh) Stop ->
  svg_files (first_yield files w) !! (mkdtemp w, svg_path) = Some image ->
  svg.flatten image = Ok parts ->
  dxf ∈ writable w ->
  exists w',
    main (S (S fuel)) pdf dxf w = Some (Returned, w')
    /\ dxf_files w' !! dxf
       = Some (fmap (M:=list) (flipped_y (bbox_max_y image))
                 <$> all_segments image)
    /\ cwd w' = cwd w
    /\ (mkdtemp w ∉ dirs w')
    /\ forall name, svg_files w' !! (mkdtemp w, name) = None.
Proof.
  intros Hp Ht Hf Hfl Hd. unfold run.
  rewrite (for_enumerate_ext _ _ _ _ _ _ _ _ _ _
             (next_created _ _ _ _ _ _ _ Hp)).
  rewrite Ht. cbn [for_enumerate next resume]. unfold run_body.
  destruct (first_yield_state files w) as (Hcwd & Hin & _ & Hwr).
  rewrite <- Hcwd in Hf. rewrite <- Hwr in Hd.
  rewrite (convert_eq _ dxf _ _ _ Hf Hfl Hd).
  cbn [Nat.ltb Nat.leb].
  rewrite bool_decide_eq_true_2 by exact Hin.
  match goal with
  | |- context [rmtree ?t (os_chdir ?c ?v)] =>
      destruct (cleaned_up t c v) as (Hc & Hout & Hdxf & Hsvg)
  end.
  eexists. split; [reflexivity|]. rewrite Hdxf.
  split; [|split; [exact Hc|split; [exact Hout|exact Hsvg]]].
  apply stored_polylines, Hfl.
Qed.

(** X13: when the locator yields two descriptors or more, the first two
    vector files are there and flatten, and the destination can be
    written, [run] returns after the second one: the drawing at the
    destination is the second page's, the later descriptors are not
    looked at, and the process is left in the temporary directory, which
    still exists. *)
Theorem run_two_or_more_pages (fuel : nat) (pdf dxf : string) (w : world)
    (alto_xml : element) (files : list (string * svg.image))
    (p1 p2 : string) (s1 s2 : float * float) (rest : trace item)
    (image1 image2 : svg.image) (parts1 parts2 : list svg.part) :
  pdfalto pdf = (files, Some alto_xml) ->
  iter_pages_and_sizes float_of_str alto_xml
  = Yield (p1, s1) (Yield (p2, s2) rest) ->
  svg_files (first_yield files w) !! (mkdtemp w, p1) = Some image1 ->
  svg_files (first_yield files w) !! (mkdtemp w, p2) = Some image2 ->
  svg.flatten image1 = Ok parts1 ->
  svg.flatten image2 = Ok parts2 ->
  dxf ∈ writable w ->
  exists w',
    main (S (S fuel)) pdf dxf w = Some (Returned, w')
    /\ dxf_files w' !! dxf
       = Some (fmap (M:=list) (flipped_y (bbox_max_y image2))
                 <$> all_segments image2)
    /\ cwd w' = mkdtemp w
    /\ mkdtemp w ∈ dirs w'.
Proof.
  intros Hp Ht H1 H2 Hf1 Hf2 Hd. unfold run.
  rewrite (for_enumerate_ext _ _ _ _ _ _ _ _ _ _
             (next_created _ _ _ _ _ _ _ Hp)).
  rewrite Ht. cbn [for_enumerate next resume]. unfold run_body.
  destruct (first_yield_state files w) as (Hcwd & Hin & _ & Hwr).
  rewrite <- Hcwd in H1, H2. rewrite <- Hwr in Hd.
  rewrite (convert_eq _ dxf _ _ _ H1 Hf1 Hd).
  cbn [Nat.ltb Nat.leb].
  rewrite (convert_eq p2 dxf _ image2 parts2) by assumption.
  cbn [Nat.ltb Nat.leb close snd].
  eexists. split; [reflexivity|].
  split; [|split; [exact Hcwd|exact Hin]].
  apply stored_polylines, Hf2.
Qed.

(** X18: when the destination cannot be written (its directory does not
    exist), the first conversion builds its drawing and fails at the
    save: [run] ends with [FileNotFoundError] after the first
    descriptor, no drawing is written, and the process is left inside
    the temporary directory, which is not removed. *)
Theorem run_unwritable_destination (fuel : nat) (pdf dxf : string)
    (w : world) (alto_xml : element) (files : list (string * svg.image))
    (svg_path : string) (size_wh : float * float) (rest : trace item)
    (image : svg.image) (parts : list svg.part) :
  pdfalto pdf = (files, Some alto_xml) ->
  iter_pages_and_sizes float_of_str alto_xml
  = Yield (svg_path, size_wh) rest ->
  svg_files (first_yield files w) !! (mkdtemp w, svg_path) = Some image ->
  svg.flatten image = Ok parts ->
  dxf ∉ writable w ->
  exists w',
    main (S fuel) pdf dxf w = Some (Uncaught FileNotFoundError, w')
    /\ dxf_files w' = dxf_files w
    /\ cwd w' = mkdtemp w
    /\ mkdtemp w ∈ dirs w'.
Proof.
  intros Hp Ht Hf Hfl Hd. unfold run.
  rewrite (for_enumerate_ext _ _ _ _ _ _ _ _ _ _
             (next_created _ _ _ _ _ _ _ Hp)).
  rewrite Ht. cbn [for_enumerate next resume]. unfold run_body.
  destruct (first_yield_state files w) as (Hcwd & Hin & Hdxf & Hwr).
  rewrite <- Hcwd in Hf. rewrite <- Hwr in Hd.
  unfold convert, save. rewrite Hf, Hfl.
  destruct (svg.bbox image) as [bmim bmax].
  rewrite add_parts_name. cbn [dxf.new dxf.name].
  rewrite bool_decide_eq_false_2 by exact Hd.
  cbn [close snd]. eexists. split; [reflexivity|].
  split; [exact Hdxf|]. split; [exact Hcwd|exact Hin].
Qed.

End Run.

(** ** The lifetime of the temporary directory and of the yielded paths *)

Section Lifetime.

Variable float_of_str : string -> option float.
Variable mkdtemp : world -> string.
Variable pdfalto : string -> list (string * svg.image) * option element.

Local Abbreviation loop := (for_enumerate float_of_str mkdtemp pdfalto).

Lemma exhaust_suspended_state
    (body : nat -> item -> world -> result (bool * world))
    (tmpdir curdir : string) :
  (forall c it w, exists w', body c it w = Ok (false, w')) ->
  forall (t : trace item), raised t = None ->
  forall (fuel c : nat) (w : world) (o : outcome) (w' : world),
    loop fuel body c (Suspended tmpdir curdir t) w = Some (o, w') ->
    cwd w' = curdir
    /\ (o = Returned ->
        forall name, svg_files w' !! (tmpdir, name) = None).
Proof.
  intros Hbody t.
  induction t as [|it t IH|e]; intros Hr fuel c w o w' H;
    [| |discriminate Hr];
    (destruct fuel as [|fuel]; [discriminate H|]);
    cbn [for_enumerate next resume] in H.
  - destruct (bool_decide _); injection H as <- <-.
    + destruct (cleaned_up tmpdir curdir w) as (Hc & _ & _ & Hs).
      split; [exact Hc|]. intros _. exact Hs.
    + split; [reflexivity|discriminate].
  - destruct (Hbody c it w) as [w1 Hb]. rewrite Hb in H.
    exact (IH Hr _ _ _ _ _ H).
Qed.

(** X14: the yielded paths live as long as the iteration.  When the
    extraction succeeds and the consumer takes every descriptor without
    breaking or raising, the loop ends in the directory the generator was
    started in, whatever directory the consumer moved to; and when the
    loop returns, no vector file is left in the temporary directory. *)
Theorem iteration_exhausted_state
    (body : nat -> item -> world -> result (bool * world))
    (source : string) (w : world) (alto_xml : element)
    (files : list (string * svg.image)) (fuel : nat) :
  pdfalto source = (files, Some alto_xml) ->
  (forall c it w0, exists w', body c it w0 = Ok (false, w')) ->
  length (yields (iter_pages_and_sizes float_of_str alto_xml)) < fuel ->
  exists o w',
    loop fuel body 0 (Created source) w = Some (o, w')
    /\ cwd w' = cwd w
    /\ (o = Returned ->
        forall name, svg_files w' !! (mkdtemp w, name) = None).
Proof.
  intros Hp Hbody Hfuel.
  rewrite (for_enumerate_ext _ _ _ _ _ _ _ _ _ _
             (next_created _ _ _ _ _ _ _ Hp)).
  destruct (exhaust_suspended float_of_str mkdtemp pdfalto body
              (mkdtemp w) (cwd w) Hbody _
              (iter_pages_and_sizes_no_raise float_of_str alto_xml)
              fuel 0 (at_first_yield mkdtemp files w) Hfuel)
    as (o & w' & H & _).
  exists o, w'. split; [exact H|].
  exact (exhaust_suspended_state body _ _ Hbody _
           (iter_pages_and_sizes_no_raise float_of_str alto_xml)
           _ _ _ _ _ H).
Qed.

(** X16: when the extraction succeeds and the consumer takes every
    descriptor without breaking or raising, the loop ends and the
    temporary directory is gone (the loop returns, unless the consumer
    itself removed the directory, which the final listing of it
    reports). *)
Theorem iteration_exhausted_removes_tmpdir
    (body : nat -> item -> world -> result (bool * world))
    (source : string) (w : world) (alto_xml : element)
    (files : list (string * svg.image)) (fuel : nat) :
  pdfalto source = (files, Some alto_xml) ->
  (forall c it w0, exists w', body c it w0 = Ok (false, w')) ->
  length (yields (iter_pages_and_sizes float_of_str alto_xml)) < fuel ->
  exists o w',
    loop fuel body 0 (Created source) w = Some (o, w')
    /\ (mkdtemp w ∉ dirs w')
    /\ (o = Returned \/ o = Uncaught FileNotFoundError).
Proof.
  intros Hp Hbody Hfuel.
  rewrite (for_enumerate_ext _ _ _ _ _ _ _ _ _ _
             (next_created _ _ _ _ _ _ _ Hp)).
  apply exhaust_suspended; trivial.
  apply iter_pages_and_sizes_no_raise.
Qed.

Lemma break_suspended
    (body : nat -> item -> world -> result (bool * world))
    (tmpdir curdir : string) (k : nat) :
  (forall c it w, exists w',
      body c it w = Ok (bool_decide (c = k), w') /\ dirs w' = dirs w) ->
  forall (t : trace item) (fuel c : nat) (w : world),
    c <= k -> k - c < length (yields t) -> k - c < fuel ->
    tmpdir ∈ dirs w ->
    exists w',
      loop fuel body c (Suspended tmpdir curdir t) w = Some (Returned, w')
      /\ tmpdir ∈ dirs w'.
Proof.
  intros Hbody t.
  induction t as [|it t IH|e]; intros fuel c w Hc Hlen Hfuel Hin;
    [simpl in Hlen; lia| |simpl in Hlen; lia].
  destruct fuel as [|fuel]; [lia|].
  cbn [for_enumerate next resume].
  destruct (Hbody c it w) as (w1 & Hb & Hd). rewrite Hb.
  destruct (bool_decide_reflect (c = k)) as [Heq|Hne].
  - eexists. split; [reflexivity|]. cbn [close snd]. rewrite Hd.
    exact Hin.
  - apply IH; [lia| |lia|rewrite Hd; exact Hin].
    simpl in Hlen. lia.
Qed.

(** X17: when the extraction succeeds and the consumer breaks at a
    descriptor, whichever it is, leaving the directories alone, the loop
    returns with the temporary directory still there: breaking out of the
    iteration removes nothing. *)
Theorem iteration_break_leaves_tmpdir
    (body : nat -> item -> world -> result (bool * world))
    (source : string) (w : world) (alto_xml : element)
    (files : list (string * svg.image)) (fuel k : nat) :
  pdfalto source = (files, Some alto_xml) ->
  (forall c it w0, exists w',
      body c it w0 = Ok (bool_decide (c = k), w') /\ dirs w' = dirs w0) ->
  k < length (yields (iter_pages_and_sizes float_of_str alto_xml)) ->
  k < fuel ->
  exists w',
    loop fuel body 0 (Created source) w = Some (Returned, w')
    /\ mkdtemp w ∈ dirs w'.
Proof.
  intros Hp Hbody Hk Hfuel.
  rewrite (for_enumerate_ext _ _ _ _ _ _ _ _ _ _
             (next_created _ _ _ _ _ _ _ Hp)).
  apply (break_suspended body _ _ k Hbody); try lia.
  simpl. apply elem_of_union_l, elem_of_singleton. reflexivity.
Qed.

End Lifetime.

(** ** Instances *)

Lemma iteration_exhausted_state_witness :
  exists o w',
    for_enumerate Sample.float_of_int_literal Sample.mkdtemp Sample.pdfalto
                  3 (fun _ _ w0 => Ok (false, os_chdir "/elsewhere" w0)) 0
                  (Created "/in/two.pdf") Sample.start
    = Some (o, w')
    /\ cwd w' = cwd Sample.start
    /\ (o = Returned ->
        forall name, svg_files w' !! (Sample.mkdtemp Sample.start, name)
                     = None).
Proof.
  apply (iteration_exhausted_state Sample.float_of_int_literal
           Sample.mkdtemp Sample.pdfalto
           (fun _ _ w0 => Ok (false, os_chdir "/elsewhere" w0))
           "/in/two.pdf" Sample.start Sample.two_pages Sample.files 3).
  - reflexivity.
  - intros c it w0. eexists. reflexivity.
  - vm_compute. lia.
Defined.

Lemma iteration_exhausted_removes_tmpdir_witness :
  exists o w',
    for_enumerate Sample.float_of_int_literal Sample.mkdtemp Sample.pdfalto
                  3 (fun _ _ w0 => Ok (false, w0)) 0
                  (Created "/in/two.pdf") Sample.start
    = Some (o, w')
    /\ (Sample.mkdtemp Sample.start ∉ dirs w')
    /\ (o = Returned \/ o = Uncaught FileNotFoundError).
Proof.
  apply (iteration_exhausted_removes_tmpdir Sample.float_of_int_literal
           Sample.mkdtemp Sample.pdfalto (fun _ _ w0 => Ok (false, w0))
           "/in/two.pdf" Sample.start Sample.two_pages Sample.files 3).
  - reflexivity.
  - intros c it w0. exists w0. reflexivity.
  - vm_compute. lia.
Defined.

Lemma iteration_break_leaves_tmpdir_witness :
  exists w',
    for_enumerate Sample.float_of_int_literal Sample.mkdtemp Sample.pdfalto
                  2 (fun c _ w0 => Ok (bool_decide (c = 1), w0)) 0
                  (Created "/in/two.pdf") Sample.start
    = Some (Returned, w')
    /\ Sample.mkdtemp Sample.start ∈ dirs w'.
Proof.
  apply (iteration_break_leaves_tmpdir Sample.float_of_int_literal
           Sample.mkdtemp Sample.pdfalto
           (fun c _ w0 => Ok (bool_decide (c = 1), w0))
           "/in/two.pdf" Sample.start Sample.two_pages Sample.files 2 1).
  - reflexivity.
  - intros c it w0. exists w0. split; reflexivity.
  - vm_compute. lia.
  - lia.
Defined.

Lemma run_writes_only_destination_witness :
  exists o w',
    Sample.run 3 "/in/two.pdf" "/out/a.dxf" Sample.start = Some (o, w')
    /\ dxf_files w' !! "/out/b.dxf"
       = dxf_files Sample.start !! "/out/b.dxf".
Proof.
  destruct (Sample.run 3 "/in/two.pdf" "/out/a.dxf" Sample.start)
    as [[o w']|] eqn:H; [|vm_compute in H; discriminate H].
  exists o, w'. split; [reflexivity|].
  apply (run_writes_only_destination Sample.float_of_int_literal
           Sample.mkdtemp Sample.pdfalto 3 "/in/two.pdf" "/out/a.dxf"
           "/out/b.dxf" Sample.start w' o H).
  discriminate.
Defined.

Lemma run_at_most_two_pages_witness :
  Sample.run 7 "/in/two.pdf" "/out/a.dxf" Sample.start
  = Sample.run 2 "/in/two.pdf" "/out/a.dxf" Sample.start
  /\ is_Some (Sample.run 2 "/in/two.pdf" "/out/a.dxf" Sample.start).
Proof.
  apply (run_at_most_two_pages Sample.float_of_int_literal Sample.mkdtemp
           Sample.pdfalto 7 "/in/two.pdf" "/out/a.dxf" Sample.start).
  lia.
Defined.

Lemma run_extraction_failure_witness :
  exists w',
    Sample.run 1 "/in/broken.pdf" "/out/a.dxf" Sample.start
    = Some (Uncaught CalledProcessError, w')
    /\ dxf_files w' = dxf_files Sample.start
    /\ cwd w' = Sample.mkdtemp Sample.start
    /\ Sample.mkdtemp Sample.start ∈ dirs w'.
Proof.
  apply (run_extraction_failure Sample.float_of_int_literal Sample.mkdtemp
           Sample.pdfalto 0 "/in/broken.pdf" "/out/a.dxf" Sample.start
           [("p1.svg", Sample.p1_svg)]).
  reflexivity.
Defined.

Lemma run_no_pages_witness :
  exists w',
    Sample.run 1 "/in/empty.pdf" "/out/a.dxf" Sample.start
    = Some (Returned, w')
    /\ dxf_files w' = dxf_files Sample.start
    /\ cwd w' = cwd Sample.start
    /\ (Sample.mkdtemp Sample.start ∉ dirs w').
Proof.
  apply (run_no_pages Sample.float_of_int_literal Sample.mkdtemp
           Sample.pdfalto 0 "/in/empty.pdf" "/out/a.dxf" Sample.start
           (Sample.Layout []) []).
  - reflexivity.
  - vm_compute. reflexivity.
Defined.

Lemma run_one_page_witness :
  exists w',
    Sample.run 2 "/in/one.pdf" "/out/a.dxf" Sample.start
    = Some (Returned, w')
    /\ dxf_files w' !! "/out/a.dxf"
       = Some (fmap (M:=list) (flipped_y (bbox_max_y Sample.p1_svg))
                 <$> all_segments Sample.p1_svg)
    /\ cwd w' = cwd Sample.start
    /\ (Sample.mkdtemp Sample.start ∉ dirs w')
    /\ forall name,
         svg_files w' !! (Sample.mkdtemp Sample.start, name) = None.
Proof.
  apply (run_one_page Sample.float_of_int_literal Sample.mkdtemp
           Sample.pdfalto 0 "/in/one.pdf" "/out/a.dxf" Sample.start
           Sample.one_page Sample.files "p1.svg"
           (of_int 612, of_int 792) Sample.p1_svg
           [svg.PathBearing "Path" [[Sample.pt 0 0; Sample.pt 72 100]]]);
    first [ vm_compute; reflexivity
          | apply (bool_decide_unpack _); vm_compute; exact I ].
Defined.

Lemma run_two_or_more_pages_witness :
  exists w',
    Sample.run 2 "/in/two.pdf" "/out/a.dxf" Sample.start
    = Some (Returned, w')
    /\ dxf_files w' !! "/out/a.dxf"
       = Some (fmap (M:=list) (flipped_y (bbox_max_y Sample.p2_svg))
                 <$> all_segments Sample.p2_svg)
    /\ cwd w' = Sample.mkdtemp Sample.start
    /\ Sample.mkdtemp Sample.start ∈ dirs w'.
Proof.
  apply (run_two_or_more_pages Sample.float_of_int_literal Sample.mkdtemp
           Sample.pdfalto 0 "/in/two.pdf" "/out/a.dxf" Sample.start
           Sample.two_pages Sample.files "p1.svg" "p2.svg"
           (of_int 612, of_int 792) (of_int 612, of_int 792) Stop
           Sample.p1_svg Sample.p2_svg
           [svg.PathBearing "Path" [[Sample.pt 0 0; Sample.pt 72 100]]]
           [svg.Opaque "Text";
            svg.PathBearing "Rect"
              [[Sample.pt 0 0; Sample.pt 36 36]; []]]);
    first [ vm_compute; reflexivity
          | apply (bool_decide_unpack _); vm_compute; exact I ].
Defined.

Lemma run_unwritable_destination_witness :
  exists w',
    Sample.run 1 "/in/one.pdf" "/nowhere/a.dxf" Sample.start
    = Some (Uncaught FileNotFoundError, w')
    /\ dxf_files w' = dxf_files Sample.start
    /\ cwd w' = Sample.mkdtemp Sample.start
    /\ Sample.mkdtemp Sample.start ∈ dirs w'.
Proof.
  apply (run_unwritable_destination Sample.float_of_int_literal
           Sample.mkdtemp Sample.pdfalto 0 "/in/one.pdf" "/nowhere/a.dxf"
           Sample.start Sample.one_page Sample.files "p1.svg"
           (of_int 612, of_int 792) Stop Sample.p1_svg
           [svg.PathBearing "Path" [[Sample.pt 0 0; Sample.pt 72 100]]]);
    first [ vm_compute; reflexivity
          | apply (bool_decide_unpack _); vm_compute; exact I ].
Defined.
